(** * allenopt: hyperparameter search orchestration

    A shallow embedding of [allenopt/commands/allenopt.py]: the two
    sub-commands [allenopt] (run a search) and [best-params] (export the
    best parameters of a study), with the documents they read, the
    command-line defaults they declare and the calls they make into the
    study library.

    The Python functions of the file are embedded one by one under their
    own names.  The study library and the training executor are not part
    of the file: their behaviour is either a field of the environment
    record [Env] or a definition marked [Modelled from the spec]. *)

From Stdlib Require Import ZArith QArith Lqa String Ascii List.
From Stdlib Require Import Decimal DecimalNat DecimalZ DecimalString.
From stdpp Require Import gmap strings list fin_maps.

Set Warnings "-register-all".

Local Open Scope string_scope.
Local Open Scope list_scope.

(** ** Documents *)

(** The value [json.load] returns: a Python object built from [None],
    booleans, integers, floats, strings, lists and dicts.  A dict keeps
    the order of its keys. *)
Inductive json : Type :=
| JNull
| JBool (b : bool)
| JInt (z : Z)
| JFloat (q : Q)
| JStr (s : string)
| JList (l : list json)
| JObj (kvs : list (string * json)).

(** Keyword arguments of a call, and the items of a dict. *)
Abbreviation kwargs := (list (string * json)).

(** ** Exceptions *)

(** The Python exceptions the file can meet come with their Python names;
    the failures signalled by the study, the executor and the sampler
    come with the names of the specification. *)
Inductive error : Type :=
| AttributeError (name : string)
| KeyError (key : string)
| TypeError
| FileNotFoundError (path : string)
| IsADirectoryError (path : string)
| FileExistsError (path : string)
| JSONDecodeError (path : string)
| UnicodeDecodeError (path : string)
| PermissionError (path : string)
| InvalidBounds
| DuplicateStudyError
| UnknownStudyError
| DirectoryConflictError
| InvalidTransitionError
| NoCompletedTrialError
| TrainingError.

(** The exceptions by which a bad descriptor shows: a name that is no
    attribute, a key that is missing, a value of the wrong type, bounds
    the sampler rejects.  The specification has one name for all of
    them. *)
Definition MalformedSpecError (e : error) : bool :=
  match e with
  | AttributeError _ | KeyError _ | TypeError | InvalidBounds => true
  | _ => false
  end.

Inductive result (A : Type) : Type :=
| Ok (a : A)
| Raise (e : error).
Arguments Ok {A} a.
Arguments Raise {A} e.

Definition bind {A B : Type} (r : result A) (k : A -> result B) : result B :=
  match r with
  | Ok a => k a
  | Raise e => Raise e
  end.

Declare Scope result_scope.
Delimit Scope result_scope with result.
Notation "'do' x <- r ; k" := (bind r (fun x => k))
  (at level 10, x name, r at level 100, k at level 200) : result_scope.
Local Open Scope result_scope.

(** ** Python primitives *)

(** [d[key]] on a loaded document. *)
Fixpoint assoc {A : Type} (key : string) (kvs : list (string * A)) : option A :=
  match kvs with
  | [] => None
  | (k, v) :: rest => if String.eqb k key then Some v else assoc key rest
  end.

Definition getitem (doc : json) (key : string) : result json :=
  match doc with
  | JObj kvs =>
      match assoc key kvs with
      | Some v => Ok v
      | None => Raise (KeyError key)
      end
  | _ => Raise TypeError
  end.

(** [sub in s] on strings. *)
Fixpoint is_prefix (p s : string) : bool :=
  match p, s with
  | EmptyString, _ => true
  | String a p', String b s' => if Ascii.eqb a b then is_prefix p' s' else false
  | String _ _, EmptyString => false
  end.

Fixpoint is_substring (p s : string) : bool :=
  if is_prefix p s then true
  else match s with
       | EmptyString => false
       | String _ s' => is_substring p s'
       end.

(** [key in doc]: key membership on a dict, element membership on a list,
    substring test on a string, [TypeError] on anything else. *)
Definition contains (key : string) (doc : json) : result bool :=
  match doc with
  | JObj kvs => Ok (bool_decide (is_Some (assoc key kvs)))
  | JList l =>
      Ok (existsb (fun x => match x with JStr s => String.eqb s key | _ => false end) l)
  | JStr s => Ok (is_substring key s)
  | _ => Raise TypeError
  end.

(** [for x in doc]: the elements of a list, the keys of a dict, the
    characters of a string. *)
Fixpoint chars (s : string) : list json :=
  match s with
  | EmptyString => []
  | String a s' => JStr (String a EmptyString) :: chars s'
  end.

Definition iterate (doc : json) : result (list json) :=
  match doc with
  | JList l => Ok l
  | JObj kvs => Ok (map (fun kv => JStr (fst kv)) kvs)
  | JStr s => Ok (chars s)
  | _ => Raise TypeError
  end.

(** [**doc]: only a dict unpacks into keyword arguments. *)
Definition unpack (doc : json) : result kwargs :=
  match doc with
  | JObj kvs => Ok kvs
  | _ => Raise TypeError
  end.

Definition str_of_nat (n : nat) : string := NilEmpty.string_of_uint (Nat.to_uint n).
Definition str_of_Z (z : Z) : string := NilEmpty.string_of_int (Z.to_int z).

(** ["{}".format(v)].  [repr] gives the text of the floats, lists and
    dicts, which is Python's business. *)
Definition py_str (repr : json -> string) (v : json) : string :=
  match v with
  | JStr s => s
  | JNull => "None"
  | JBool true => "True"
  | JBool false => "False"
  | JInt z => str_of_Z z
  | _ => repr v
  end.

(** [" ".join(parts)] *)
Fixpoint join (sep : string) (parts : list string) : string :=
  match parts with
  | [] => ""
  | [p] => p
  | p :: rest => p +:+ sep +:+ join sep rest
  end.

(** [os.path.join(a, b)] on a POSIX system. *)
Definition ends_with_slash (s : string) : bool :=
  match rev (list_ascii_of_string s) with
  | c :: _ => Ascii.eqb c "/"%char
  | [] => false
  end.

Definition os_path_join (a b : string) : string :=
  if is_prefix "/" b then b
  else if (String.eqb a "" || ends_with_slash a)%bool then a +:+ b
  else a +:+ "/" +:+ b.

(** ** The file system *)

(** A path names a directory, or a regular file.  Of a regular file only
    what [json.load(open(path))] comes to matters: the document it
    holds, or the exception that opening or decoding it raises (a file
    that may not be read, bytes that are no text, text that is no
    JSON). *)
Inductive node : Type :=
| Dir
| File (content : result json).

Definition os_path_isfile (fs : gmap string node) (path : string) : bool :=
  match fs !! path with
  | Some (File _) => true
  | _ => false
  end.

Definition os_path_exists (fs : gmap string node) (path : string) : bool :=
  bool_decide (is_Some (fs !! path)).

(** [json.load(open(path))] *)
Definition json_load (fs : gmap string node) (path : string) : result json :=
  match fs !! path with
  | None => Raise (FileNotFoundError path)
  | Some Dir => Raise (IsADirectoryError path)
  | Some (File content) => content
  end.

(** [os.makedirs(path, exist_ok=True)] *)
Definition os_makedirs (fs : gmap string node) (path : string) : result (gmap string node) :=
  match fs !! path with
  | None => Ok (<[path := Dir]> fs)
  | Some Dir => Ok fs
  | Some (File _) => Raise (FileExistsError path)
  end.

(** ** Trials and studies *)

Inductive State : Type := RUNNING | COMPLETE | PRUNED | FAILED.

Inductive Direction : Type := minimize | maximize.

(** One trial as the storage holds it.  [number] is the id of the trial
    within its study ([trial.number] in the source). *)
Record TrialRecord : Type := {
  number : nat;
  params : kwargs;
  intermediate_values : list (nat * Q);
  final_value : option Q;
  state : State
}.

(** What a study is in the storage. *)
Record StudyRecord : Type := {
  direction : Direction;
  trials : list TrialRecord
}.

(** An object made by calling a class looked up by name: the class and
    the arguments its constructor received, positional and keyword. *)
Record instance : Type := {
  cls : string;
  args : list json;
  kwds : kwargs
}.

Inductive Sampler : Type :=
| UniformRandom
| Configured (i : instance).

(** The study object a process holds: where its record lives, and the
    strategies attached to it in this process. *)
Record Study : Type := {
  storage_url : string;
  name : string;
  sampler : Sampler;
  pruner : option instance
}.

(** The world the commands act on: the file system, and the studies of
    every storage, keyed by storage URL and study name. *)
Record world : Type := {
  fs : gmap string node;
  db : gmap (string * string) StudyRecord
}.

Definition set_fs (w : world) (f : gmap string node) : world :=
  {| fs := f; db := db w |}.

Definition set_db (w : world) (d : gmap (string * string) StudyRecord) : world :=
  {| fs := fs w; db := d |}.

(** What the training collaborator does when called: the intermediate
    metrics it reports, in order, and the metric it returns unless it
    fails. *)
Record training : Type := {
  reports : list (nat * Q);
  final : option Q
}.

(** ** The environment

    Everything the file takes from Python, the study library and the
    training library without defining it. *)
Record Env : Type := {
  (** [str] of the floats, lists and dicts *)
  repr : json -> string;
  (** the attributes of a [Trial] *)
  trial_attrs : string -> bool;
  (** the attributes of the modules [optuna.pruners] and [optuna.samplers] *)
  pruners_attrs : string -> bool;
  samplers_attrs : string -> bool;
  (** the exception the constructor of a class raises on the arguments,
      if it raises *)
  init_raises : string -> list json -> kwargs -> option error;
  (** the value a sampler suggests when a suggestion method is called
      with keywords, given the trials so far and the asking trial;
      nothing when the keywords are not bounds the method accepts *)
  suggest : Sampler -> string -> kwargs -> list TrialRecord -> nat -> option json;
  (** the decision of a pruner on a reporting trial *)
  should_prune : instance -> list TrialRecord -> TrialRecord -> bool;
  (** the training collaborator: base configuration, overrides, output
      directory, metric name *)
  train : string -> kwargs -> string -> string -> training;
  (** the wall-clock seconds a trial takes *)
  trial_seconds : nat -> Q;
  (** the name given to a study created without one *)
  fresh_study_name : gmap (string * string) StudyRecord -> string
}.

(** ** The command line *)

(** What [allenopt] finds on its command line: the two positional paths,
    the required [--serialization-dir], and the options given or not. *)
Record CommandLine : Type := {
  cli_param_path : string;
  cli_hparam_path : string;
  cli_optuna_param_path : option string;
  cli_serialization_dir : string;
  cli_skip_if_exists : bool;
  cli_direction : option Direction;
  cli_n_trials : option Z;
  cli_timeout : option Q;
  cli_study_name : option string;
  cli_storage : option string;
  cli_metrics : option string
}.

(** [args] of [optimize_hyperparameters]. *)
Record Namespace : Type := {
  param_path : string;
  hparam_path : string;
  optuna_param_path : option string;
  serialization_dir : string;
  skip_if_exists : bool;
  args_direction : Direction;
  n_trials : option Z;
  timeout : option Q;
  study_name : option string;
  storage : string;
  metrics : string
}.

(** [AllenOpt.add_subparser]: each option with the default it declares. *)
Definition add_subparser (c : CommandLine) : Namespace :=
  {| param_path := cli_param_path c;
     hparam_path := cli_hparam_path c;
     optuna_param_path := cli_optuna_param_path c;
     serialization_dir := cli_serialization_dir c;
     skip_if_exists := cli_skip_if_exists c;
     args_direction := default minimize (cli_direction c);
     n_trials := Some (default 50%Z (cli_n_trials c));
     timeout := cli_timeout c;
     study_name := cli_study_name c;
     storage := default "sqlite:///allenopt.db" (cli_storage c);
     metrics := default "best_validation_loss" (cli_metrics c) |}.

(** [args] of [export_hyperparameters], and [AllenOptExport.add_subparser]. *)
Record ExportNamespace : Type := {
  export_study_name : option string;
  export_storage : string
}.

Definition export_add_subparser (study_name : option string) (storage : option string)
  : ExportNamespace :=
  {| export_study_name := study_name;
     export_storage := default "sqlite:///allenopt.db" storage |}.

(** ** Computations on the world

    A call into the study or the executor reads and writes the world,
    and what it wrote stays written when it raises. *)
Definition M (A : Type) : Type := world -> result A * world.

Definition ret {A : Type} (a : A) : M A := fun w => (Ok a, w).

Definition raise {A : Type} (e : error) : M A := fun w => (Raise e, w).

Definition lift {A : Type} (r : result A) : M A := fun w => (r, w).

Definition bindM {A B : Type} (m : M A) (k : A -> M B) : M B :=
  fun w =>
    match m w with
    | (Ok a, w') => k a w'
    | (Raise e, w') => (Raise e, w')
    end.

Notation "'run' x <- m ; k" := (bindM m (fun x => k))
  (at level 10, x name, m at level 100, k at level 200) : result_scope.

(** ** The study operations *)

Definition study_key (s : Study) : string * string := (storage_url s, name s).

Definition find_trial (n : nat) (ts : list TrialRecord) : option TrialRecord :=
  List.find (fun t => Nat.eqb (number t) n) ts.

Definition update_trial (n : nat) (f : TrialRecord -> TrialRecord) (ts : list TrialRecord)
  : list TrialRecord :=
  map (fun t => if Nat.eqb (number t) n then f t else t) ts.

(** The trials of a study, as the storage has them now. *)
Definition trials_of (w : world) (s : Study) : list TrialRecord :=
  match db w !! study_key s with
  | Some r => trials r
  | None => []
  end.

Definition set_trials (w : world) (s : Study) (ts : list TrialRecord) : world :=
  match db w !! study_key s with
  | Some r => set_db w (<[study_key s := {| direction := direction r; trials := ts |}]> (db w))
  | None => w
  end.

(** [params[name] = value] on a dict: the value of a key that is there
    is replaced in place, a new key goes last. *)
Fixpoint setitem (key : string) (v : json) (kvs : kwargs) : kwargs :=
  match kvs with
  | [] => [(key, v)]
  | (k, x) :: rest =>
      if String.eqb k key then (k, v) :: rest else (k, x) :: setitem key v rest
  end.

Definition next_number (ts : list TrialRecord) : nat :=
  fold_right (fun t acc => Nat.max (S (number t)) acc) 0 ts.

Definition better (d : Direction) (a b : Q) : bool :=
  match d with
  | minimize => match (a ?= b)%Q with Lt => true | _ => false end
  | maximize => match (a ?= b)%Q with Gt => true | _ => false end
  end.

Definition same (a b : Q) : bool :=
  match (a ?= b)%Q with Eq => true | _ => false end.

(** Whether trial [t] with value [v] takes the place of the best so far. *)
Definition beats (d : Direction) (t : TrialRecord) (v : Q) (cur : option (TrialRecord * Q))
  : bool :=
  match cur with
  | None => true
  | Some (c, cv) => (better d v cv || (same v cv && Nat.ltb (number t) (number c)))%bool
  end.

Fixpoint best_of (d : Direction) (ts : list TrialRecord) (cur : option (TrialRecord * Q))
  : option (TrialRecord * Q) :=
  match ts with
  | [] => cur
  | t :: rest =>
      match state t, final_value t with
      | COMPLETE, Some v => best_of d rest (if beats d t v cur then Some (t, v) else cur)
      | _, _ => best_of d rest cur
      end
  end.

(** The final value of a trial that counts for [best]: that of a trial
    which reached COMPLETE. *)
Definition value_of (t : TrialRecord) : option Q :=
  match state t with
  | COMPLETE => final_value t
  | _ => None
  end.

(** [v] is at least as good as [v'] for the direction. *)
Definition no_worse (d : Direction) (v v' : Q) : Prop :=
  match d with
  | minimize => (v <= v')%Q
  | maximize => (v' <= v)%Q
  end.

(** The order [best_of] follows: better value first, smaller number
    among equal values. *)
Definition ahead (d : Direction) (t : TrialRecord) (v : Q) (c : TrialRecord) (cv : Q) : Prop :=
  match d with
  | minimize => (v < cv)%Q \/ ((v == cv)%Q /\ number t < number c)
  | maximize => (cv < v)%Q \/ ((v == cv)%Q /\ number t < number c)
  end.

(** A candidate of the scan: a trial of the list that counts, or the
    best so far. *)
Definition candidate (ts : list TrialRecord) (cur : option (TrialRecord * Q))
    (t : TrialRecord) (v : Q) : Prop :=
  (In t ts /\ value_of t = Some v) \/ cur = Some (t, v).

Section Orchestration.

Context (env : Env).

(** Modelled from the spec: [Study.create_or_load] (section 4.4), which
    the source reaches as [optuna.create_study]; the study library is
    not part of the source.  A name that is taken fails with
    [DuplicateStudyError] unless [load_if_exists], which loads the study
    and attaches the given sampler and pruner; a free name makes an
    empty record.  No sampler means the default uniform-random strategy
    (section 4.2); the pruner is optional (section 3). *)
Definition create_study (study_name : option string) (d : Direction) (storage : string)
    (pruner : option instance) (sampler : option Sampler) (load_if_exists : bool)
  : M Study :=
  fun w =>
    let n := match study_name with
             | Some n => n
             | None => fresh_study_name env (db w)
             end in
    let study := {| storage_url := storage; name := n;
                    sampler := default UniformRandom sampler;
                    pruner := pruner |} in
    match db w !! (storage, n) with
    | Some _ =>
        if load_if_exists then (Ok study, w) else (Raise DuplicateStudyError, w)
    | None =>
        (Ok study, set_db w (<[(storage, n) := {| direction := d; trials := [] |}]> (db w)))
    end.

(** Modelled from the spec: the Exporter "reads a persisted Study"
    (sections 2 and 4.7), which the source reaches as
    [optuna.load_study]; the study library is not part of the source. *)
Definition load_study (study_name : option string) (storage : string) (w : world)
  : result Study :=
  match study_name with
  | None => Raise UnknownStudyError
  | Some n =>
      match db w !! (storage, n) with
      | Some _ => Ok {| storage_url := storage; name := n;
                        sampler := UniformRandom; pruner := None |}
      | None => Raise UnknownStudyError
      end
  end.

(** Modelled from the spec: [Study.ask] (section 4.4), inside the
    library's [Study.optimize]; the study library is not part of the
    source.  The next id is allocated and a RUNNING record written.  The
    record starts without parameters: the source samples them inside the
    objective, through the trial. *)
Definition Study_ask (study : Study) : M nat :=
  fun w =>
    match db w !! study_key study with
    | None => (Raise UnknownStudyError, w)
    | Some r =>
        let n := next_number (trials r) in
        let t := {| number := n; params := []; intermediate_values := [];
                    final_value := None; state := RUNNING |} in
        (Ok n, set_trials w study (trials r ++ [t]))
    end.

(** Modelled from the spec: [Study.tell] (section 4.4); the study
    library is not part of the source.  A RUNNING trial becomes COMPLETE
    with its final value, or FAILED; any other trial, or none, is an
    [InvalidTransitionError]. *)
Definition Study_tell (study : Study) (n : nat) (value : option Q) (outcome : State)
  : M unit :=
  fun w =>
    match find_trial n (trials_of w study) with
    | Some t =>
        match state t with
        | RUNNING =>
            (Ok (), set_trials w study
                      (update_trial n
                         (fun t => {| number := number t; params := params t;
                                      intermediate_values := intermediate_values t;
                                      final_value := value; state := outcome |})
                         (trials_of w study)))
        | _ => (Raise InvalidTransitionError, w)
        end
    | None => (Raise InvalidTransitionError, w)
    end.

(** Modelled from the spec: [Study.report] (section 4.4); the study
    library is not part of the source.  The value is appended to the
    trial; when the attached pruner says so the trial is marked PRUNED
    and the caller is told to stop ([true]).  Without a pruner nothing
    is ever pruned (section 4.3). *)
Definition Study_report (study : Study) (n : nat) (step : nat) (value : Q) : M bool :=
  fun w =>
    match find_trial n (trials_of w study) with
    | Some t =>
        let t1 := {| number := number t; params := params t;
                     intermediate_values := intermediate_values t ++ [(step, value)];
                     final_value := final_value t; state := state t |} in
        let ts1 := update_trial n (fun _ => t1) (trials_of w study) in
        let stop := match pruner study with
                    | Some p => should_prune env p ts1 t1
                    | None => false
                    end in
        if stop then
          (Ok true, set_trials w study
                      (update_trial n
                         (fun t => {| number := number t; params := params t;
                                      intermediate_values := intermediate_values t;
                                      final_value := final_value t; state := PRUNED |})
                         ts1))
        else (Ok false, set_trials w study ts1)
    | None => (Raise InvalidTransitionError, w)
    end.

(** Modelled from the spec: [Study.best] (sections 3 and 4.4); the study
    library is not part of the source.  The COMPLETE trial with the
    extremal final value for the direction of the study, the earliest id
    among equals; [NoCompletedTrialError] when no trial is COMPLETE. *)
Definition Study_best (study : Study) (w : world) : result TrialRecord :=
  match db w !! study_key study with
  | None => Raise UnknownStudyError
  | Some r =>
      match best_of (direction r) (trials r) None with
      | Some (t, _) => Ok t
      | None => Raise NoCompletedTrialError
      end
  end.

(** [study.best_params] *)
Definition best_params (study : Study) (w : world) : result kwargs :=
  do t <- Study_best study w;
  Ok (params t).

(** Modelled from the spec: the suggestion methods of a trial (sections
    4.1, 4.2 and 6), which the source reaches as [trial.suggest_<kind>];
    the study library is not part of the source.  The keywords go to the
    sampler of the study as they are, with the trials so far; the value
    is recorded in the trial under the parameter's [name]. *)
Definition Trial_suggest (study : Study) (n : nat) (method : string) (kw : kwargs) : M unit :=
  fun w =>
    match assoc "name" kw with
    | Some (JStr pname) =>
        match find_trial n (trials_of w study) with
        | Some _ =>
            match suggest env (sampler study) method kw (trials_of w study) n with
            | Some v =>
                (Ok (), set_trials w study
                          (update_trial n
                             (fun t => {| number := number t;
                                          params := setitem pname v (params t);
                                          intermediate_values := intermediate_values t;
                                          final_value := final_value t;
                                          state := state t |})
                             (trials_of w study)))
            | None => (Raise InvalidBounds, w)
            end
        | None => (Raise InvalidTransitionError, w)
        end
    | _ => (Raise TypeError, w)
    end.

(** What an objective hands back to the loop: the metric, or the notice
    that the trial was cancelled by the pruner. *)
Inductive outcome : Type :=
| Metric (v : Q)
| Cancelled.

(** The reporting callback, called on each intermediate metric in turn
    until the study says stop. *)
Fixpoint forward_reports (study : Study) (n : nat) (rs : list (nat * Q)) : M (option Q) :=
  match rs with
  | [] => ret None
  | (step, v) :: rest =>
      run stop <- Study_report study n step v;
      if stop : bool then ret (Some v) else forward_reports study n rest
  end.

Definition set_final (study : Study) (n : nat) (v : Q) : M unit :=
  fun w =>
    (Ok (), set_trials w study
              (update_trial n
                 (fun t => {| number := number t; params := params t;
                              intermediate_values := intermediate_values t;
                              final_value := Some v; state := state t |})
                 (trials_of w study))).

(** Modelled from the spec: [Executor.run] (sections 4.5 and 4.6), which
    the source reaches as [AllenNLPExecutor(...).run()]; the executor is
    not part of the source.  The output directory must not pre-exist and
    is created; the collaborator trains on the base configuration with
    the parameters of the trial laid over it; its reports go to the
    study; a cancelled trial keeps its last report as final value; a
    failure of the collaborator is recorded as FAILED and signalled. *)
Definition AllenNLPExecutor_run (study : Study) (n : nat)
    (config_file serialization_dir metrics : string) : M outcome :=
  fun w =>
    if os_path_exists (fs w) serialization_dir then (Raise DirectoryConflictError, w)
    else
      let w1 := set_fs w (<[serialization_dir := Dir]> (fs w)) in
      match find_trial n (trials_of w1 study) with
      | None => (Raise InvalidTransitionError, w1)
      | Some t =>
          let tr := train env config_file (params t) serialization_dir metrics in
          (run cancelled <- forward_reports study n (reports tr);
           match cancelled with
           | Some v => run _ <- set_final study n v; ret Cancelled
           | None =>
               match final tr with
               | Some v => ret (Metric v)
               | None => run _ <- Study_tell study n None FAILED; raise TrainingError
               end
           end) w1
      end.

(** How a run of the loop ends. *)
Inductive status : Type :=
| Finished
| Failed (e : error)
| Interrupted.

Definition budget_spent (n_trials : option Z) (timeout : option Q)
    (started : nat) (elapsed : Q) : bool :=
  (match n_trials with
   | Some n => (n <=? Z.of_nat started)%Z
   | None => false
   end
   || match timeout with
      | Some t => Qle_bool t elapsed
      | None => false
      end)%bool.

(** The failures that end one trial only (section 7). *)
Definition fatal (e : error) : bool :=
  match e with
  | DirectoryConflictError | TrainingError => false
  | _ => true
  end.

(** Modelled from the spec: the Orchestrator loop (section 4.6), which
    the source reaches as [study.optimize]; the study library is not
    part of the source.  No trial is started once [n_trials] trials were
    started or [timeout] seconds have elapsed, whichever is configured;
    otherwise the loop goes on until it is interrupted from outside,
    which is what running out of [fuel] stands for.  Each iteration asks
    for a trial, runs the objective, and tells the study the outcome; a
    trial that raised is recorded as FAILED, and a fatal failure ends
    the loop. *)
Fixpoint Study_optimize (study : Study) (objective : nat -> M outcome)
    (n_trials : option Z) (timeout : option Q)
    (fuel started : nat) (elapsed : Q) (w : world) : status * world :=
  if budget_spent n_trials timeout started elapsed then (Finished, w)
  else
    match fuel with
    | O => (Interrupted, w)
    | S fuel' =>
        match Study_ask study w with
        | (Raise e, w1) => (Failed e, w1)
        | (Ok n, w1) =>
            let elapsed' := (elapsed + trial_seconds env n)%Q in
            match objective n w1 with
            | (Ok (Metric v), w2) =>
                match Study_tell study n (Some v) COMPLETE w2 with
                | (Raise e, w3) => (Failed e, w3)
                | (Ok _, w3) =>
                    Study_optimize study objective n_trials timeout
                      fuel' (S started) elapsed' w3
                end
            | (Ok Cancelled, w2) =>
                Study_optimize study objective n_trials timeout
                  fuel' (S started) elapsed' w2
            | (Raise e, w2) =>
                let w3 := snd (Study_tell study n None FAILED w2) in
                if fatal e then (Failed e, w3)
                else Study_optimize study objective n_trials timeout
                       fuel' (S started) elapsed' w3
            end
        end
    end.

(** ** [optimize_hyperparameters] *)

(** [getattr(obj, name)], where [attrs] tells the attributes of [obj]. *)
Definition getattr (attrs : string -> bool) (name : string) : result string :=
  if attrs name then Ok name else Raise (AttributeError name).

(** The body of the loop of [_objective], lines 44 to 46. *)
Definition suggest_hparam (study : Study) (n : nat) (hparam : json) : M unit :=
  run attr_type <- lift (getitem hparam "type");
  run suggest <- lift (getattr (trial_attrs env) ("suggest_" +:+ py_str (repr env) attr_type));
  run keyword <- lift (getitem hparam "keyword");
  run kw <- lift (unpack keyword);
  Trial_suggest study n suggest kw.

Fixpoint for_each_hparam (study : Study) (n : nat) (hparams : list json) : M unit :=
  match hparams with
  | [] => ret ()
  | hparam :: rest =>
      run _ <- suggest_hparam study n hparam;
      for_each_hparam study n rest
  end.

(** Lines 43 to 46: the descriptor file is read and its entries are
    taken in turn. *)
Definition sample_hparams (study : Study) (n : nat) (hparam_path : string) : M unit :=
  run doc <- (fun w => (json_load (fs w) hparam_path, w));
  run hparams <- lift (iterate doc);
  for_each_hparam study n hparams.

Definition trial_dir (serialization_dir : string) (n : nat) : string :=
  os_path_join serialization_dir ("trial_" +:+ str_of_nat n).

(** [_objective], lines 38 to 50; [trial] is the study with the number
    of the trial. *)
Definition _objective (args : Namespace) (study : Study) (n : nat) (hparam_path : string)
  : M outcome :=
  run _ <- sample_hparams study n hparam_path;
  let optuna_serialization_dir := trial_dir (serialization_dir args) n in
  AllenNLPExecutor_run study n (param_path args) optuna_serialization_dir (metrics args).

(** Lines 52 to 55. *)
Definition load_optuna_config (fs : gmap string node) (optuna_param_path : option string)
  : result json :=
  match optuna_param_path with
  | Some path =>
      if os_path_isfile fs path then json_load fs path else Ok (JObj [])
  | None => Ok (JObj [])
  end.

(** [getattr(module, name)] with the name taken from a document. *)
Definition getattr_module (attrs : string -> bool) (name : json) : result string :=
  match name with
  | JStr s => getattr attrs s
  | _ => Raise TypeError
  end.

(** A call of the class [c]: the object made, or whatever the
    constructor raises. *)
Definition construct (c : string) (positional : list json) (keywords : kwargs)
  : result instance :=
  match init_raises env c positional keywords with
  | None => Ok {| cls := c; args := positional; kwds := keywords |}
  | Some e => Raise e
  end.

(** Lines 57 to 61. *)
Definition build_pruner (optuna_config : json) : result (option instance) :=
  do present <- contains "pruner" optuna_config;
  if present : bool then
    do section <- getitem optuna_config "pruner";
    do type <- getitem section "type";
    do pruner_class <- getattr_module (pruners_attrs env) type;
    do section' <- getitem optuna_config "pruner";
    do keyword <- getitem section' "keyword";
    do kw <- unpack keyword;
    do pruner <- construct pruner_class [] kw;
    Ok (Some pruner)
  else Ok None.

(** Lines 63 to 67. *)
Definition build_sampler (optuna_config : json) : result (option Sampler) :=
  do present <- contains "sampler" optuna_config;
  if present : bool then
    do section <- getitem optuna_config "sampler";
    do type <- getitem section "type";
    do sampler_class <- getattr_module (samplers_attrs env) type;
    do section' <- getitem optuna_config "sampler";
    do keyword <- getitem section' "keyword";
    do sampler <- construct sampler_class [keyword] [];
    Ok (Some (Configured sampler))
  else Ok None.

(** Lines 36 and 52 to 76: everything up to the study. *)
Definition setup (args : Namespace) : M Study :=
  run _ <- (fun w =>
              match os_makedirs (fs w) (serialization_dir args) with
              | Ok f => (Ok (), set_fs w f)
              | Raise e => (Raise e, w)
              end);
  run optuna_config <- (fun w => (load_optuna_config (fs w) (optuna_param_path args), w));
  run pruner <- lift (build_pruner optuna_config);
  run sampler <- lift (build_sampler optuna_config);
  create_study (study_name args) (args_direction args) (storage args)
    pruner sampler (skip_if_exists args).

(** [optimize_hyperparameters], lines 22 to 82.  [fuel] is the number of
    trials after which the process is interrupted from outside. *)
Definition optimize_hyperparameters (args : Namespace) (fuel : nat) (w : world)
  : status * world :=
  match setup args w with
  | (Raise e, w1) => (Failed e, w1)
  | (Ok study, w1) =>
      let objective := fun n => _objective args study n (hparam_path args) in
      Study_optimize study objective (n_trials args) (timeout args) fuel 0 0%Q w1
  end.

(** ** [export_hyperparameters] *)

Definition newline : string := String (ascii_of_nat 10) EmptyString.

(** ["{}={}".format(k, v)] *)
Definition format_item (kv : string * json) : string :=
  fst kv +:+ "=" +:+ py_str (repr env) (snd kv).

(** [export_hyperparameters], lines 85 to 89: the text it prints. *)
Definition export_hyperparameters (args : ExportNamespace) (w : world) : result string :=
  do study <- load_study (export_study_name args) (export_storage args) w;
  do items <- best_params study w;
  Ok (join " " (map format_item items) +:+ newline).

End Orchestration.

(** ** Predicates on computations *)

(** [m] keeps [P]: from a world with [P] it leads to a world with [P],
    whether it returns or raises. *)
Definition keeps {A : Type} (P : world -> Prop) (m : M A) : Prop :=
  forall w, P w -> P (snd (m w)).

(** The file system is [f]. *)
Definition same_fs (f : gmap string node) (w : world) : Prop := fs w = f.

(** ** The descriptor list, read as the specification reads it

    Every entry of the list, in the order of the list, names a
    suggestion method of the trial by its [type] and has it called with
    its [keyword] mapping as it stands.  [sampled env study n hparams w w']
    relates the world before the first call to the world after the
    last. *)
Inductive sampled (env : Env) (study : Study) (n : nat)
  : list json -> world -> world -> Prop :=
| sampled_nil (w : world) : sampled env study n [] w w
| sampled_cons (hparam : json) (rest : list json) (kind keyword : json) (kw : kwargs)
    (w w1 w2 : world) :
    getitem hparam "type" = Ok kind ->
    trial_attrs env ("suggest_" +:+ py_str (repr env) kind) = true ->
    getitem hparam "keyword" = Ok keyword ->
    unpack keyword = Ok kw ->
    Trial_suggest env study n ("suggest_" +:+ py_str (repr env) kind) kw w = (Ok (), w1) ->
    sampled env study n rest w1 w2 ->
    sampled env study n (hparam :: rest) w w2.

(** Trial [n] of the study has a value for the parameter [pname]. *)
Definition has_value (study : Study) (n : nat) (pname : string) (w : world) : Prop :=
  exists t v, find_trial n (trials_of w study) = Some t /\ assoc pname (params t) = Some v.

(** [m] keeps [P] and raises nothing but the exceptions in [E]. *)
Definition raises_only {A : Type} (E : error -> bool) (P : world -> Prop) (m : M A) : Prop :=
  forall w, P w ->
    P (snd (m w)) /\ forall e, fst (m w) = Raise e -> E e = true.

(** The study holds the trials [old] and, after them, trial [n], which
    is RUNNING; the file system is [f]. *)
Definition running_last (study : Study) (old : list TrialRecord) (n : nat)
    (f : gmap string node) (w : world) : Prop :=
  fs w = f /\
  exists t, trials_of w study = old ++ [t] /\ number t = n /\ state t = RUNNING.

(** The run fails on a bad descriptor before any trial runs: it ends with
    a [MalformedSpecError], and every study holds the trials it held
    before the run. *)
Definition fails_before_any_trial (env : Env) (args : Namespace) (fuel : nat) (w : world)
  : Prop :=
  exists e,
    fst (optimize_hyperparameters env args fuel w) = Failed e /\
    MalformedSpecError e = true /\
    forall study,
      trials_of (snd (optimize_hyperparameters env args fuel w)) study = trials_of w study.

(** No trial made since the world [w0] is PRUNED in [w]: in every study,
    a trial whose number [w0] had not yet given out is not PRUNED. *)
Definition no_new_pruned (w0 w : world) : Prop :=
  forall (s : Study) (t : TrialRecord),
    In t (trials_of w s) ->
    next_number (trials_of w0 s) <= number t ->
    state t <> PRUNED.

(** ** The claims on the export and on the directory, as they are stated *)

(** The line of the export, read as the specification reads it: the
    parameters as [key=value] pairs, in their order, one space between
    two pairs. *)
Inductive key_value_pairs (env : Env) : kwargs -> string -> Prop :=
| pairs_none : key_value_pairs env [] ""
| pairs_one (k : string) (v : json) :
    key_value_pairs env [(k, v)] (k +:+ "=" +:+ py_str (repr env) v)
| pairs_more (k : string) (v : json) (rest : kwargs) (line : string) :
    rest <> [] ->
    key_value_pairs env rest line ->
    key_value_pairs env ((k, v) :: rest)
      (k +:+ "=" +:+ py_str (repr env) v +:+ " " +:+ line).


(** ** A concrete setting

    An environment, a world and command lines on which the definitions
    run: the descriptor file asks for one parameter [lr], the training
    stub returns ten times [lr], and the sampler answers the lower
    bound. *)
Module Example.

Definition one_of (names : list string) (s : string) : bool :=
  existsb (String.eqb s) names.

Definition lr_of (ps : kwargs) : Q :=
  match assoc "lr" ps with
  | Some (JFloat q) => q
  | _ => 0%Q
  end.

Definition env0 : Env :=
  {| repr := fun v => match v with
                      | JFloat q => str_of_Z (Qnum q) +:+ "/" +:+ str_of_Z (Zpos (Qden q))
                      | _ => "<object>"
                      end;
     trial_attrs := one_of ["suggest_uniform"; "suggest_loguniform"; "suggest_int";
                            "suggest_float"; "suggest_categorical";
                            "suggest_discrete_uniform"];
     pruners_attrs := one_of ["MedianPruner"; "HyperbandPruner"];
     samplers_attrs := one_of ["RandomSampler"; "TPESampler"];
     init_raises := fun _ _ _ => None;
     suggest := fun _ _ kw _ _ => assoc "low" kw;
     should_prune := fun _ _ _ => true;
     train := fun _ ps _ _ => {| reports := [(0, lr_of ps)];
                                 final := Some (lr_of ps * 10)%Q |};
     trial_seconds := fun _ => 1%Q;
     fresh_study_name := fun _ => "no-name" |}.

Definition lr_descriptor : json :=
  JObj [("type", JStr "uniform");
        ("keyword", JObj [("name", JStr "lr"); ("low", JFloat (1 # 1000));
                          ("high", JFloat (1 # 10))])].

Definition bogus_descriptor : json :=
  JObj [("type", JStr "bogus"); ("keyword", JObj [("name", JStr "x")])].

Definition optuna_config0 : json :=
  JObj [("pruner", JObj [("type", JStr "MedianPruner");
                         ("keyword", JObj [("n_startup_trials", JInt 5)])]);
        ("sampler", JObj [("type", JStr "TPESampler");
                          ("keyword", JObj [("seed", JInt 42)])])].

Definition fs0 : gmap string node :=
  {[ "hparams.json" := File (Ok (JList [lr_descriptor]));
     "bad.json" := File (Ok (JList [lr_descriptor; bogus_descriptor]));
     "optuna.json" := File (Ok optuna_config0) ]}.

Definition trial0 (n : nat) (lr : Q) (v : Q) (s : State) : TrialRecord :=
  {| number := n; params := [("lr", JFloat lr)]; intermediate_values := [];
     final_value := Some v; state := s |}.

(** The study of the specification's example: final values 5.0 and
    3.0 COMPLETE, 3.0 FAILED, and one more 3.0 COMPLETE. *)
Definition study0 : StudyRecord :=
  {| direction := minimize;
     trials := [trial0 0 (1 # 2) 5 COMPLETE; trial0 1 (3 # 10) 3 COMPLETE;
                trial0 2 (1 # 5) 3 FAILED; trial0 3 (1 # 4) 3 COMPLETE] |}.

Definition world0 : world :=
  {| fs := fs0;
     db := {[ ("sqlite:///allenopt.db", "old") := study0 ]} |}.

(** [allenopt config.jsonnet hparams.json --serialization-dir out] *)
Definition cli0 : CommandLine :=
  {| cli_param_path := "config.jsonnet";
     cli_hparam_path := "hparams.json";
     cli_optuna_param_path := None;
     cli_serialization_dir := "out";
     cli_skip_if_exists := false;
     cli_direction := None;
     cli_n_trials := None;
     cli_timeout := None;
     cli_study_name := Some "demo";
     cli_storage := None;
     cli_metrics := None |}.

Definition with_hparams (c : CommandLine) (path : string) : CommandLine :=
  {| cli_param_path := cli_param_path c;
     cli_hparam_path := path;
     cli_optuna_param_path := cli_optuna_param_path c;
     cli_serialization_dir := cli_serialization_dir c;
     cli_skip_if_exists := cli_skip_if_exists c;
     cli_direction := cli_direction c;
     cli_n_trials := cli_n_trials c;
     cli_timeout := cli_timeout c;
     cli_study_name := cli_study_name c;
     cli_storage := cli_storage c;
     cli_metrics := cli_metrics c |}.

Definition with_study (c : CommandLine) (study : string) (skip : bool)
    (optuna_path : option string) : CommandLine :=
  {| cli_param_path := cli_param_path c;
     cli_hparam_path := cli_hparam_path c;
     cli_optuna_param_path := optuna_path;
     cli_serialization_dir := cli_serialization_dir c;
     cli_skip_if_exists := skip;
     cli_direction := cli_direction c;
     cli_n_trials := cli_n_trials c;
     cli_timeout := cli_timeout c;
     cli_study_name := Some study;
     cli_storage := cli_storage c;
     cli_metrics := cli_metrics c |}.

(** The handle of the study [demo], and the world once the study was
    set up and its first trial asked for. *)
Definition demo : Study :=
  {| storage_url := "sqlite:///allenopt.db"; name := "demo";
     sampler := UniformRandom; pruner := None |}.

Definition world_started : world :=
  snd (Study_ask demo (snd (setup env0 (add_subparser cli0) world0))).

End Example.

(** ** The exported line *)

(** The character [c] does not occur in [s]. *)
Fixpoint lacks (c : ascii) (s : string) : bool :=
  match s with
  | EmptyString => true
  | String a s' => (negb (Ascii.eqb a c) && lacks c s')%bool
  end.

(** What the exported line shows of a parameter: its name and the text
    of its value. *)
Definition shown (env : Env) (kv : string * json) : string * string :=
  (fst kv, py_str (repr env) (snd kv)).

(** A parameter whose name has neither a space nor an equals sign, and
    whose value is printed without a space. *)
Definition plain_item (env : Env) (kv : string * json) : Prop :=
  lacks " " (fst kv) = true /\
  lacks "=" (fst kv) = true /\
  lacks " " (py_str (repr env) (snd kv)) = true.

(** ** More concrete settings *)
Module Cases.

(** A configuration whose two sections are both bad: the pruner's class
    does not exist, and the sampler's section is not an object. *)
Definition bad_optuna_config : json :=
  JObj [("pruner", JObj [("type", JStr "NoSuchPruner"); ("keyword", JObj [])]);
        ("sampler", JList [])].

Definition fs1 : gmap string node :=
  {[ "hparams.json" := File (Ok (JList [Example.lr_descriptor]));
     "empty.json" := File (Ok (JObj []));
     "optuna.json" := File (Ok bad_optuna_config) ]}.

Definition world1 : world := {| fs := fs1; db := ∅ |}.

(** [allenopt config.jsonnet hparams.json --serialization-dir out
    --study-name demo --optuna-param-path optuna.json] *)
Definition cli1 : CommandLine :=
  Example.with_study Example.cli0 "demo" false (Some "optuna.json").

(** An entry whose kind exists but whose [keyword] is a list. *)
Definition list_keyword_descriptor : json :=
  JObj [("type", JStr "uniform"); ("keyword", JList [JStr "lr"])].

(** A file system whose configuration file holds bytes that are no
    text, and whose descriptor file has the entry above. *)
Definition fs2 : gmap string node :=
  {[ "hparams.json" := File (Ok (JList [list_keyword_descriptor]));
     "optuna.json" := File (Raise (UnicodeDecodeError "optuna.json")) ]}.

(** The world of [Example.world_started], with the file system [fs2]. *)
Definition world2 : world := set_fs Example.world_started fs2.


End Cases.

(** * Properties *)

(** A successful [do] sequence succeeded at each step. *)
Lemma bind_Ok {A B : Type} (r : result A) (k : A -> result B) (b : B) :
  bind r k = Ok b -> exists a, r = Ok a /\ k a = Ok b.
Proof. destruct r as [a|e]; simpl; [eauto | discriminate]. Qed.

Ltac step_binds :=
  repeat match goal with
         | H : bind _ _ = Ok _ |- _ =>
             let a := fresh "a" in
             let Ha := fresh "Ha" in
             apply bind_Ok in H; destruct H as (a & Ha & H)
         end.

Section ConfigurationClaims.

Context (env : Env).

Lemma isfile_makedirs (f f' : gmap string node) (dir path : string) :
  os_makedirs f dir = Ok f' -> os_path_isfile f' path = os_path_isfile f path.
Proof.
  unfold os_makedirs, os_path_isfile.
  destruct (f !! dir) as [[|doc]|] eqn:Hdir; intros H; inversion H; subst; auto.
  destruct (decide (dir = path)) as [->|Hne].
  - rewrite lookup_insert_eq, Hdir. reflexivity.
  - rewrite lookup_insert_ne by assumption. reflexivity.
Qed.

Lemma empty_config_builds_nothing :
  build_pruner env (JObj []) = Ok None /\ build_sampler env (JObj []) = Ok None.
Proof. split; reflexivity. Qed.

(** C9: when the path of the sampler/pruner configuration is unset, or
    does not name an existing regular file, nothing is raised for it:
    the configuration is the empty one, and the run goes on to create
    its study with no sampler and no pruner of its own. *)
Theorem missing_config_is_ignored (args : Namespace) (w : world) (f : gmap string node) :
  os_makedirs (fs w) (serialization_dir args) = Ok f ->
  (optuna_param_path args = None \/
   exists path, optuna_param_path args = Some path /\ os_path_isfile (fs w) path = false) ->
  load_optuna_config f (optuna_param_path args) = Ok (JObj []) /\
  setup env args w =
    create_study env (study_name args) (args_direction args) (storage args)
      None None (skip_if_exists args) (set_fs w f).
Proof.
  intros Hmk Hpath.
  assert (Hcfg : load_optuna_config f (optuna_param_path args) = Ok (JObj [])).
  { destruct Hpath as [-> | (path & -> & Hfile)]; simpl; [reflexivity|].
    rewrite (isfile_makedirs _ _ _ _ Hmk), Hfile. reflexivity. }
  split; [exact Hcfg|].
  unfold setup, bindM, lift. rewrite Hmk. simpl. rewrite Hcfg. reflexivity.
Qed.

(** C10: the two sections of the configuration are not built alike.  The
    pruner's class is called with the [keyword] mapping of its section
    unpacked into keyword arguments and no positional argument; the
    sampler's class is called with the [keyword] value of its section as
    its one positional argument and no keyword argument. *)
Theorem pruner_unpacked_sampler_positional (cfg : json) (p : instance) (s : Sampler) :
  build_pruner env cfg = Ok (Some p) ->
  build_sampler env cfg = Ok (Some s) ->
  exists psection ssection pkw skw i,
    getitem cfg "pruner" = Ok psection /\
    getitem psection "keyword" = Ok (JObj pkw) /\
    getitem cfg "sampler" = Ok ssection /\
    getitem ssection "keyword" = Ok skw /\
    args p = [] /\ kwds p = pkw /\
    s = Configured i /\ args i = [skw] /\ kwds i = [].
Proof.
  unfold build_pruner, build_sampler, construct. intros Hp Hs.
  apply bind_Ok in Hp. destruct Hp as ([|] & _ & Hp); [|discriminate].
  apply bind_Ok in Hs. destruct Hs as ([|] & _ & Hs); [|discriminate].
  step_binds.
  repeat match goal with
         | H : (if ?c then _ else _) = Ok _ |- _ => destruct c; [|discriminate]
         | H : match ?c with Some _ => _ | None => _ end = Ok _ |- _ =>
             destruct c; [discriminate|]
         | H : Ok _ = Ok _ |- _ => inversion H; clear H; subst
         end.
  match goal with
  | H1 : getitem cfg "pruner" = Ok ?a, H2 : getitem cfg "pruner" = Ok ?b |- _ =>
      rewrite H1 in H2; inversion H2; subst
  end.
  match goal with
  | H1 : getitem cfg "sampler" = Ok ?a, H2 : getitem cfg "sampler" = Ok ?b |- _ =>
      rewrite H1 in H2; inversion H2; subst
  end.
  match goal with
  | H : unpack ?k = Ok ?kw |- _ => destruct k; try discriminate; inversion H; subst
  end.
  eexists _, _, _, _, _. repeat split; eauto.
Qed.

End ConfigurationClaims.

Lemma missing_config_is_ignored_witness :
  let args := add_subparser (Example.with_study Example.cli0 "demo" false (Some "nowhere.json")) in
  load_optuna_config (<["out" := Dir]> Example.fs0) (optuna_param_path args) = Ok (JObj []) /\
  setup Example.env0 args Example.world0 =
    create_study Example.env0 (study_name args) (args_direction args) (storage args)
      None None (skip_if_exists args) (set_fs Example.world0 (<["out" := Dir]> Example.fs0)).
Proof.
  apply (missing_config_is_ignored Example.env0).
  - reflexivity.
  - right. exists "nowhere.json". split; reflexivity.
Defined.

Lemma pruner_unpacked_sampler_positional_witness :
  exists psection ssection pkw skw i,
    getitem Example.optuna_config0 "pruner" = Ok psection /\
    getitem psection "keyword" = Ok (JObj pkw) /\
    getitem Example.optuna_config0 "sampler" = Ok ssection /\
    getitem ssection "keyword" = Ok skw /\
    args {| cls := "MedianPruner"; args := []; kwds := [("n_startup_trials", JInt 5)] |} = [] /\
    kwds {| cls := "MedianPruner"; args := []; kwds := [("n_startup_trials", JInt 5)] |} = pkw /\
    Configured {| cls := "TPESampler"; args := [JObj [("seed", JInt 42)]]; kwds := [] |}
      = Configured i /\
    args i = [skw] /\ kwds i = [].
Proof.
  apply (pruner_unpacked_sampler_positional Example.env0 Example.optuna_config0); reflexivity.
Defined.

(** ** The best trial *)

Section BestTrial.

Context (d : Direction).

Lemma beats_ahead (t : TrialRecord) (v : Q) (c : TrialRecord) (cv : Q) :
  beats d t v (Some (c, cv)) = true <-> ahead d t v c cv.
Proof.
  unfold beats, ahead, better, same.
  rewrite orb_true_iff, andb_true_iff, Nat.ltb_lt.
  destruct d; destruct (v ?= cv)%Q eqn:Hc;
    first [ apply Qeq_alt in Hc | apply Qlt_alt in Hc | apply Qgt_alt in Hc ];
    split; intros H; intuition (try discriminate; try lra).
Qed.

Lemma ahead_irrefl (t : TrialRecord) (v : Q) : ~ ahead d t v t v.
Proof. unfold ahead. destruct d; intros [H|[_ H]]; try lra; lia. Qed.

Lemma ahead_trans (a b c : TrialRecord) (va vb vc : Q) :
  ahead d a va b vb -> ahead d b vb c vc -> ahead d a va c vc.
Proof.
  unfold ahead. destruct d; intros [H1|[H1 H1']] [H2|[H2 H2']];
    first [ left; lra | right; split; [lra | lia] ].
Qed.

Lemma ahead_neg_trans (a b c : TrialRecord) (va vb vc : Q) :
  ~ ahead d a va b vb -> ~ ahead d b vb c vc -> ~ ahead d a va c vc.
Proof.
  unfold ahead. intros H1 H2 H3.
  destruct d.
  - destruct (Qlt_le_dec va vb) as [?|Hab]; [tauto|].
    destruct (Qlt_le_dec vb vc) as [?|Hbc]; [tauto|].
    destruct H3 as [H3|[H3 H3']]; [lra|].
    assert (va == vb)%Q by lra. assert (vb == vc)%Q by lra.
    destruct (Nat.lt_ge_cases (number a) (number b)); [tauto|].
    destruct (Nat.lt_ge_cases (number b) (number c)); [tauto|]. lia.
  - destruct (Qlt_le_dec vb va) as [?|Hab]; [tauto|].
    destruct (Qlt_le_dec vc vb) as [?|Hbc]; [tauto|].
    destruct H3 as [H3|[H3 H3']]; [lra|].
    assert (va == vb)%Q by lra. assert (vb == vc)%Q by lra.
    destruct (Nat.lt_ge_cases (number a) (number b)); [tauto|].
    destruct (Nat.lt_ge_cases (number b) (number c)); [tauto|]. lia.
Qed.

Lemma ahead_no_worse (t t' : TrialRecord) (v v' : Q) :
  ~ ahead d t' v' t v -> no_worse d v v' /\ ((v' == v)%Q -> number t <= number t').
Proof.
  unfold ahead, no_worse. intros H. destruct d.
  - destruct (Qlt_le_dec v' v); [tauto|]. split; [assumption|].
    intros He. destruct (Nat.lt_ge_cases (number t') (number t)); [tauto | lia].
  - destruct (Qlt_le_dec v v'); [tauto|]. split; [assumption|].
    intros He. destruct (Nat.lt_ge_cases (number t') (number t)); [tauto | lia].
Qed.

Lemma best_of_step (t0 : TrialRecord) (rest : list TrialRecord)
    (cur : option (TrialRecord * Q)) :
  best_of d (t0 :: rest) cur =
    match value_of t0 with
    | Some v => best_of d rest (if beats d t0 v cur then Some (t0, v) else cur)
    | None => best_of d rest cur
    end.
Proof. unfold value_of. simpl. destruct (state t0), (final_value t0); reflexivity. Qed.

Lemma best_of_optimal (ts : list TrialRecord) :
  forall cur t v,
    (forall c cv, cur = Some (c, cv) -> value_of c = Some cv) ->
    best_of d ts cur = Some (t, v) ->
    candidate ts cur t v /\
    forall t' v', candidate ts cur t' v' -> ~ ahead d t' v' t v.
Proof.
  induction ts as [|t0 rest IH]; intros cur t v Hcur Hbest.
  - simpl in Hbest. subst cur. split; [right; reflexivity|].
    intros t' v' [[[] _]|H]. inversion H; subst. apply ahead_irrefl.
  - rewrite best_of_step in Hbest.
    destruct (value_of t0) as [v0|] eqn:Hv0.
    + destruct (beats d t0 v0 cur) eqn:Hb.
      * apply IH in Hbest; [|intros c cv H; inversion H; subst; assumption].
        destruct Hbest as [Hcand Hopt]. split.
        { destruct Hcand as [[Hin Hv]|H].
          - left. split; [right; assumption | assumption].
          - inversion H; subst. left. split; [left; reflexivity | assumption]. }
        intros t' v' [[[<-|Hin] Hv]|H].
        { rewrite Hv0 in Hv. inversion Hv; subst. apply Hopt. right. reflexivity. }
        { apply Hopt. left. auto. }
        subst cur. apply beats_ahead in Hb.
        intros Hah. apply (Hopt t0 v0); [right; reflexivity|].
        eapply ahead_trans; eassumption.
      * apply IH in Hbest; [|assumption].
        destruct Hbest as [Hcand Hopt]. split.
        { destruct Hcand as [[Hin Hv]|H]; [left; split; [right|]; assumption | right; assumption]. }
        intros t' v' [[[<-|Hin] Hv]|H].
        { rewrite Hv0 in Hv. inversion Hv; subst.
          destruct cur as [[c cv]|]; [|discriminate].
          apply (ahead_neg_trans _ c _ _ cv).
          - intros Hah. apply beats_ahead in Hah. congruence.
          - apply Hopt. right. reflexivity. }
        { apply Hopt. left. auto. }
        apply Hopt. right. assumption.
    + apply IH in Hbest; [|assumption].
      destruct Hbest as [Hcand Hopt]. split.
      { destruct Hcand as [[Hin Hv]|H]; [left; split; [right|]; assumption | right; assumption]. }
      intros t' v' [[[<-|Hin] Hv]|H].
      { congruence. }
      { apply Hopt. left. auto. }
      apply Hopt. right. assumption.
Qed.

Lemma best_of_none (ts : list TrialRecord) :
  forall cur, best_of d ts cur = None ->
              cur = None /\ forall t, In t ts -> value_of t = None.
Proof.
  induction ts as [|t0 rest IH]; intros cur Hbest.
  - simpl in Hbest. split; [assumption | intros t []].
  - rewrite best_of_step in Hbest.
    destruct (value_of t0) as [v0|] eqn:Hv0.
    + apply IH in Hbest. destruct Hbest as [Hcur _].
      destruct (beats d t0 v0 cur) eqn:Hb; [discriminate|].
      destruct cur as [[c cv]|]; [discriminate | discriminate].
    + apply IH in Hbest. destruct Hbest as [Hcur Hall]. split; [assumption|].
      intros t [<-|Hin]; auto.
Qed.

Lemma best_of_some (ts : list TrialRecord) :
  forall cur, (exists t, In t ts /\ value_of t <> None) \/ cur <> None ->
              best_of d ts cur <> None.
Proof.
  intros cur H Hn. apply best_of_none in Hn. destruct Hn as [Hcur Hall].
  destruct H as [(t & Hin & Hv)|H]; [apply Hv, Hall, Hin | contradiction].
Qed.

End BestTrial.

Lemma append_assoc (a b c : string) : (a +:+ b) +:+ c = a +:+ b +:+ c.
Proof.
  induction a as [|x a IH]; [reflexivity|].
  change (String x ((a +:+ b) +:+ c) = String x (a +:+ b +:+ c)).
  rewrite IH. reflexivity.
Qed.

(** What the source prints is the line of [key=value] pairs. *)
Lemma join_format_pairs (env : Env) (ps : kwargs) :
  key_value_pairs env ps (join " " (map (format_item env) ps)).
Proof.
  induction ps as [|[k v] rest IH]; [constructor|].
  destruct rest as [|kv rest]; [constructor|].
  change (join " " (map (format_item env) ((k, v) :: kv :: rest)))
    with (format_item env (k, v) +:+ " " +:+ join " " (map (format_item env) (kv :: rest))).
  unfold format_item at 1. simpl fst. simpl snd.
  rewrite append_assoc. simpl ("=" +:+ _).
  change (String "=" (py_str (repr env) v) +:+ " " +:+ ?x)
    with ("=" +:+ (py_str (repr env) v +:+ " " +:+ x)).
  constructor; [discriminate | exact IH].
Qed.

Section ExportClaims.

Context (env : Env).

(** C1: for a study that is in the storage, the export prints, as
    [key=value] items, the parameters of the best trial: a trial of the
    study that reached COMPLETE, whose final value no other COMPLETE
    trial improves on for the direction of the study, and which has the
    smallest id among the COMPLETE trials of that value, so it is never
    a FAILED trial; when no trial reached COMPLETE the export fails with
    the [NoCompletedTrialError] of [Study.best]. *)
Theorem export_prints_best_params (args : ExportNamespace) (w : world)
    (n : string) (r : StudyRecord) :
  export_study_name args = Some n ->
  db w !! (export_storage args, n) = Some r ->
  ((forall t, In t (trials r) -> state t <> COMPLETE) ->
   export_hyperparameters env args w = Raise NoCompletedTrialError) /\
  (((forall t, In t (trials r) -> value_of t = None) /\
    export_hyperparameters env args w = Raise NoCompletedTrialError) \/
   exists t v line,
     In t (trials r) /\ state t = COMPLETE /\ final_value t = Some v /\
     (forall t' v', In t' (trials r) -> value_of t' = Some v' ->
                    no_worse (direction r) v v' /\ ((v' == v)%Q -> number t <= number t')) /\
     key_value_pairs env (params t) line /\
     export_hyperparameters env args w = Ok (line +:+ String "010"%char "")).
Proof.
  intros Hname Hdb.
  assert (Hexp : export_hyperparameters env args w =
                 match best_of (direction r) (trials r) None with
                 | Some (t, _) => Ok (join " " (map (format_item env) (params t)) +:+ newline)
                 | None => Raise NoCompletedTrialError
                 end).
  { unfold export_hyperparameters, load_study, best_params, Study_best, study_key.
    rewrite Hname, Hdb. simpl. rewrite Hdb.
    destruct (best_of (direction r) (trials r) None) as [[t v]|]; reflexivity. }
  rewrite Hexp.
  destruct (best_of (direction r) (trials r) None) as [[t v]|] eqn:Hbest.
  - apply best_of_optimal in Hbest; [|discriminate].
    destruct Hbest as [[[Hin Hv]|Hcur] Hopt]; [|discriminate].
    assert (Hst : state t = COMPLETE /\ final_value t = Some v).
    { unfold value_of in Hv. destruct (state t); try discriminate. auto. }
    destruct Hst as [Hst Hfv]. split.
    + intros Hno. exfalso. exact (Hno t Hin Hst).
    + right. exists t, v, (join " " (map (format_item env) (params t))).
      split; [assumption|]. split; [assumption|]. split; [assumption|].
      split; [|split; [apply join_format_pairs | reflexivity]].
      intros t' v' Hin' Hv'.
      apply (ahead_no_worse (direction r) t t' v v').
      apply Hopt. left. auto.
  - apply best_of_none in Hbest. destruct Hbest as [_ Hall].
    split; [reflexivity | left; split; [assumption | reflexivity]].
Qed.

End ExportClaims.

Lemma export_prints_best_params_witness :
  let args := export_add_subparser (Some "old") None in
  ((forall t, In t (trials Example.study0) -> state t <> COMPLETE) ->
   export_hyperparameters Example.env0 args Example.world0 = Raise NoCompletedTrialError) /\
  (((forall t, In t (trials Example.study0) -> value_of t = None) /\
    export_hyperparameters Example.env0 args Example.world0 = Raise NoCompletedTrialError) \/
   exists t v line,
     In t (trials Example.study0) /\ state t = COMPLETE /\ final_value t = Some v /\
     (forall t' v', In t' (trials Example.study0) -> value_of t' = Some v' ->
                    no_worse (direction Example.study0) v v' /\
                    ((v' == v)%Q -> number t <= number t')) /\
     key_value_pairs Example.env0 (params t) line /\
     export_hyperparameters Example.env0 args Example.world0
       = Ok (line +:+ String "010"%char "")).
Proof.
  apply (export_prints_best_params Example.env0
           (export_add_subparser (Some "old") None) Example.world0 "old" Example.study0);
    reflexivity.
Defined.

(** The study of the specification's example: the export prints the
    parameters of trial 1, the first COMPLETE trial of value 3. *)
Example export_example :
  export_hyperparameters Example.env0 (export_add_subparser (Some "old") None) Example.world0
  = Ok ("lr=3/10" +:+ newline).
Proof. reflexivity. Qed.

(** ** What the study operations keep *)

Lemma keeps_ret {A : Type} (P : world -> Prop) (a : A) : keeps P (ret a).
Proof. intros w H. exact H. Qed.

Lemma keeps_raise {A : Type} (P : world -> Prop) (e : error) : keeps P (@raise A e).
Proof. intros w H. exact H. Qed.

Lemma keeps_lift {A : Type} (P : world -> Prop) (r : result A) : keeps P (lift r).
Proof. intros w H. exact H. Qed.

Lemma keeps_bind {A B : Type} (P : world -> Prop) (m : M A) (k : A -> M B) :
  keeps P m -> (forall a, keeps P (k a)) -> keeps P (bindM m k).
Proof.
  intros Hm Hk w H. unfold bindM. specialize (Hm w H).
  destruct (m w) as [[a|e] w1]; simpl in *; [apply Hk; assumption | assumption].
Qed.

Lemma fs_set_trials (w : world) (s : Study) (ts : list TrialRecord) :
  fs (set_trials w s ts) = fs w.
Proof. unfold set_trials. destruct (db w !! study_key s); reflexivity. Qed.

Lemma trials_of_set_trials (w : world) (s s' : Study) (ts : list TrialRecord) :
  trials_of (set_trials w s ts) s' =
    if decide (study_key s = study_key s')
    then match db w !! study_key s with Some _ => ts | None => [] end
    else trials_of w s'.
Proof.
  unfold trials_of, set_trials.
  destruct (db w !! study_key s) as [r|] eqn:Hr; simpl.
  - destruct (decide (study_key s = study_key s')) as [He|Hne].
    + rewrite <- He, lookup_insert_eq. reflexivity.
    + rewrite lookup_insert_ne by assumption. reflexivity.
  - destruct (decide (study_key s = study_key s')) as [He|Hne]; [|reflexivity].
    rewrite <- He, Hr. reflexivity.
Qed.

Lemma trials_of_set_trials_same (w : world) (s : Study) (ts : list TrialRecord) :
  trials_of w s <> [] -> trials_of (set_trials w s ts) s = ts.
Proof.
  intros Hne. rewrite trials_of_set_trials.
  destruct (decide (study_key s = study_key s)) as [_|]; [|congruence].
  unfold trials_of in Hne. destruct (db w !! study_key s); [reflexivity | congruence].
Qed.

Lemma find_trial_nonempty (n : nat) (ts : list TrialRecord) (t : TrialRecord) :
  find_trial n ts = Some t -> ts <> [].
Proof. destruct ts; [discriminate | discriminate]. Qed.

Section Frames.

Context (env : Env) (study : Study).

Lemma Trial_suggest_fs f n method kw : keeps (same_fs f) (Trial_suggest env study n method kw).
Proof.
  intros w H. unfold Trial_suggest, same_fs in *.
  destruct (assoc "name" kw) as [[| | | |pname| |]|]; try exact H.
  destruct (find_trial n (trials_of w study)); [|exact H].
  destruct (suggest env _ _ _ _ _); [|exact H].
  simpl. rewrite fs_set_trials. exact H.
Qed.





Lemma suggest_hparam_fs f n h : keeps (same_fs f) (suggest_hparam env study n h).
Proof.
  unfold suggest_hparam.
  repeat (apply keeps_bind; [apply keeps_lift | intros ?]).
  apply Trial_suggest_fs.
Qed.

Lemma for_each_hparam_fs f n hps : keeps (same_fs f) (for_each_hparam env study n hps).
Proof.
  induction hps as [|h rest IH]; simpl; [apply keeps_ret|].
  apply keeps_bind; [apply suggest_hparam_fs | intros _; exact IH].
Qed.

Lemma sample_hparams_fs f n path : keeps (same_fs f) (sample_hparams env study n path).
Proof.
  unfold sample_hparams.
  apply keeps_bind; [intros w H; exact H | intros doc].
  apply keeps_bind; [apply keeps_lift | intros hps]. apply for_each_hparam_fs.
Qed.


End Frames.

(** ** The directory of a trial *)




Lemma ends_with_slash_cons (c : ascii) (s : string) :
  ends_with_slash (String c s) =
    match s with
    | EmptyString => Ascii.eqb c "/"%char
    | String _ _ => ends_with_slash s
    end.
Proof.
  unfold ends_with_slash. destruct s as [|d s]; [reflexivity|].
  change (list_ascii_of_string (String c (String d s)))
    with (c :: list_ascii_of_string (String d s)).
  change (rev (c :: list_ascii_of_string (String d s)))
    with (rev (list_ascii_of_string (String d s)) ++ [c]).
  destruct (rev (list_ascii_of_string (String d s))) as [|x l] eqn:Hrev; [|reflexivity].
  apply (f_equal (@List.length ascii)) in Hrev. rewrite length_rev in Hrev.
  simpl in Hrev. discriminate.
Qed.

(** A text ends with a slash exactly when it is some text followed by a
    slash. *)
Lemma ends_with_slash_iff (s : string) :
  ends_with_slash s = true <-> exists r, s = r +:+ "/".
Proof.
  induction s as [|c s IH].
  - split; [discriminate|]. intros ([|x r] & H); discriminate.
  - rewrite ends_with_slash_cons. destruct s as [|d s].
    + split.
      * intros H. apply Ascii.eqb_eq in H. subst c. exists "". reflexivity.
      * intros ([|x [|y r]] & H); inversion H; reflexivity.
    + rewrite IH. split.
      * intros (r & Hr). exists (String c r). rewrite Hr. reflexivity.
      * intros ([|x r] & H); inversion H. eauto.
Qed.

(** The directory of a trial, spelled out. *)
Lemma trial_dir_form (root : string) :
  exists sep,
    ((root = "" \/ exists r, root = r +:+ "/") -> sep = "") /\
    (root <> "" -> (forall r, root <> r +:+ "/") -> sep = "/") /\
    forall n, trial_dir root n = root +:+ sep +:+ "trial_" +:+ str_of_nat n.
Proof.
  unfold trial_dir, os_path_join.
  change (is_prefix "/" ("trial_" +:+ _)) with false. cbv iota.
  destruct (String.eqb root "") eqn:Hempty; simpl orb.
  - exists "". split; [reflexivity|]. split; [|reflexivity].
    apply String.eqb_eq in Hempty. intros Hne. contradiction.
  - destruct (ends_with_slash root) eqn:Hends.
    + exists "". split; [reflexivity|]. split; [|reflexivity].
      apply ends_with_slash_iff in Hends. destruct Hends as (r & Hr).
      intros _ Hno. exfalso. apply (Hno r). exact Hr.
    + exists "/". split; [|split; reflexivity].
      intros [Hroot|Hslash].
      * subst root. discriminate.
      * apply ends_with_slash_iff in Hslash. congruence.
Qed.

Section ExecutorClaims.

Context (env : Env).


End ExecutorClaims.



(** ** Creating the study *)

Section StudyClaims.

Context (env : Env).

Lemma setup_unfold (args : Namespace) (w : world) (f : gmap string node) (cfg : json)
    (p : option instance) (s : option Sampler) :
  os_makedirs (fs w) (serialization_dir args) = Ok f ->
  load_optuna_config f (optuna_param_path args) = Ok cfg ->
  build_pruner env cfg = Ok p ->
  build_sampler env cfg = Ok s ->
  setup env args w =
    create_study env (study_name args) (args_direction args) (storage args)
      p s (skip_if_exists args) (set_fs w f).
Proof.
  intros Hmk Hcfg Hp Hs. unfold setup, bindM, lift.
  rewrite Hmk. simpl. rewrite Hcfg, Hp, Hs. reflexivity.
Qed.


(** C7: when the configuration has no [sampler] section, the study the
    run works on has the default uniform-random strategy for sampler. *)
Theorem no_sampler_section_default_sampler (args : Namespace) (w w' : world)
    (f : gmap string node) (cfg : json) (study : Study) :
  os_makedirs (fs w) (serialization_dir args) = Ok f ->
  load_optuna_config f (optuna_param_path args) = Ok cfg ->
  contains "sampler" cfg = Ok false ->
  setup env args w = (Ok study, w') ->
  build_sampler env cfg = Ok None /\ sampler study = UniformRandom.
Proof.
  intros Hmk Hcfg Hno Hsetup.
  assert (Hs : build_sampler env cfg = Ok None).
  { unfold build_sampler. rewrite Hno. reflexivity. }
  split; [exact Hs|].
  unfold setup, bindM, lift in Hsetup. rewrite Hmk in Hsetup. simpl in Hsetup.
  rewrite Hcfg, Hs in Hsetup.
  destruct (build_pruner env cfg) as [p|e]; [|discriminate].
  unfold create_study in Hsetup.
  match type of Hsetup with
  | context [db ?w0 !! ?k] => destruct (db w0 !! k)
  end.
  - destruct (skip_if_exists args); inversion Hsetup; reflexivity.
  - inversion Hsetup. reflexivity.
Qed.

End StudyClaims.


Lemma no_sampler_section_default_sampler_witness :
  build_sampler Example.env0 (JObj []) = Ok None /\ sampler Example.demo = UniformRandom.
Proof.
  apply (no_sampler_section_default_sampler Example.env0 (add_subparser Example.cli0)
           Example.world0
           (snd (setup Example.env0 (add_subparser Example.cli0) Example.world0))
           (<["out" := Dir]> Example.fs0) (JObj []) Example.demo);
    vm_compute; reflexivity.
Defined.

(** ** Sampling the descriptor list *)

Lemma bindM_Ok {A B : Type} (m : M A) (k : A -> M B) (w w' : world) (b : B) :
  bindM m k w = (Ok b, w') -> exists a w1, m w = (Ok a, w1) /\ k a w1 = (Ok b, w').
Proof.
  unfold bindM. destruct (m w) as [[a|e] w1]; intros H; [eauto | discriminate].
Qed.

Lemma lift_Ok {A : Type} (r : result A) (w w' : world) (a : A) :
  lift r w = (Ok a, w') -> r = Ok a /\ w' = w.
Proof. unfold lift. intros H. inversion H. auto. Qed.

Lemma getattr_Ok (attrs : string -> bool) (name a : string) :
  getattr attrs name = Ok a -> attrs name = true /\ a = name.
Proof. unfold getattr. destruct (attrs name); intros H; inversion H; auto. Qed.

Lemma find_trial_update (n : nat) (f : TrialRecord -> TrialRecord) (ts : list TrialRecord) :
  (forall t, number (f t) = number t) ->
  find_trial n (update_trial n f ts) = option_map f (find_trial n ts).
Proof.
  intros Hf. unfold find_trial, update_trial.
  induction ts as [|t rest IH]; simpl; [reflexivity|].
  destruct (Nat.eqb (number t) n) eqn:Hn; simpl.
  - rewrite Hf, Hn. reflexivity.
  - rewrite Hn. exact IH.
Qed.

Lemma assoc_setitem_same (key : string) (v : json) (kvs : kwargs) :
  assoc key (setitem key v kvs) = Some v.
Proof.
  induction kvs as [|[k x] rest IH]; simpl.
  - rewrite String.eqb_refl. reflexivity.
  - destruct (String.eqb k key) eqn:Hk; simpl; rewrite Hk; [reflexivity | exact IH].
Qed.

Lemma assoc_setitem_keeps (key key' : string) (v : json) (kvs : kwargs) :
  is_Some (assoc key kvs) -> is_Some (assoc key (setitem key' v kvs)).
Proof.
  induction kvs as [|[k x] rest IH]; simpl; intros H.
  - destruct H as [? H]. discriminate.
  - destruct (String.eqb k key') eqn:Hk; simpl.
    + destruct (String.eqb k key); [eauto | assumption].
    + destruct (String.eqb k key); [assumption | auto].
Qed.

Section SamplingClaims.

Context (env : Env) (study : Study) (n : nat).

Lemma suggest_hparam_Ok (hparam : json) (w w' : world) :
  suggest_hparam env study n hparam w = (Ok (), w') ->
  exists kind keyword kw,
    getitem hparam "type" = Ok kind /\
    trial_attrs env ("suggest_" +:+ py_str (repr env) kind) = true /\
    getitem hparam "keyword" = Ok keyword /\
    unpack keyword = Ok kw /\
    Trial_suggest env study n ("suggest_" +:+ py_str (repr env) kind) kw w = (Ok (), w').
Proof.
  unfold suggest_hparam. intros H.
  apply bindM_Ok in H. destruct H as (kind & w1 & H1 & H).
  apply lift_Ok in H1. destruct H1 as [Hkind ->].
  apply bindM_Ok in H. destruct H as (method & w1 & H1 & H).
  apply lift_Ok in H1. destruct H1 as [Hattr ->].
  apply getattr_Ok in Hattr. destruct Hattr as [Hattr ->].
  apply bindM_Ok in H. destruct H as (keyword & w1 & H1 & H).
  apply lift_Ok in H1. destruct H1 as [Hkeyword ->].
  apply bindM_Ok in H. destruct H as (kw & w1 & H1 & H).
  apply lift_Ok in H1. destruct H1 as [Hkw ->].
  exists kind, keyword, kw. auto.
Qed.

Lemma Trial_suggest_Ok (method : string) (kw : kwargs) (w w' : world) :
  Trial_suggest env study n method kw w = (Ok (), w') ->
  exists pname v,
    assoc "name" kw = Some (JStr pname) /\
    suggest env (sampler study) method kw (trials_of w study) n = Some v /\
    has_value study n pname w'.
Proof.
  unfold Trial_suggest. intros H.
  destruct (assoc "name" kw) as [[| | | |pname| |]|]; try discriminate.
  destruct (find_trial n (trials_of w study)) as [t|] eqn:Ht; [|discriminate].
  destruct (suggest env _ _ _ _ _) as [v|] eqn:Hv; [|discriminate].
  inversion H; subst; clear H. exists pname, v. repeat split.
  unfold has_value.
  rewrite trials_of_set_trials_same by (eapply find_trial_nonempty; eassumption).
  rewrite find_trial_update by reflexivity. rewrite Ht. simpl.
  eexists _, v. split; [reflexivity|]. simpl. apply assoc_setitem_same.
Qed.

Lemma Trial_suggest_keeps_value (pname method : string) (kw : kwargs) :
  keeps (has_value study n pname) (Trial_suggest env study n method kw).
Proof.
  intros w Hw. pose proof Hw as (t & v & Ht & Hv). unfold Trial_suggest.
  destruct (assoc "name" kw) as [[| | | |pname'| |]|]; try exact Hw.
  rewrite Ht.
  destruct (suggest env _ _ _ _ _) as [v'|]; [|exact Hw].
  simpl. unfold has_value.
  rewrite trials_of_set_trials_same by (eapply find_trial_nonempty; eassumption).
  rewrite find_trial_update by reflexivity. rewrite Ht. simpl.
  destruct (assoc_setitem_keeps pname pname' v' (params t)) as [x Hx]; [eauto|].
  eexists _, x. split; [reflexivity | exact Hx].
Qed.

Lemma for_each_hparam_keeps_value (pname : string) (hps : list json) :
  keeps (has_value study n pname) (for_each_hparam env study n hps).
Proof.
  induction hps as [|h rest IH]; simpl; [apply keeps_ret|].
  apply keeps_bind; [|intros _; exact IH].
  unfold suggest_hparam.
  repeat (apply keeps_bind; [apply keeps_lift | intros ?]).
  apply Trial_suggest_keeps_value.
Qed.

(** The executable loop and the reading of the specification agree. *)
Lemma for_each_hparam_sampled (hps : list json) (w w' : world) :
  for_each_hparam env study n hps w = (Ok (), w') <-> sampled env study n hps w w'.
Proof.
  split.
  - revert w. induction hps as [|h rest IH]; simpl; intros w H.
    + inversion H. constructor.
    + apply bindM_Ok in H. destruct H as ([] & w1 & H1 & H).
      apply suggest_hparam_Ok in H1.
      destruct H1 as (kind & keyword & kw & Hkind & Hattr & Hkeyword & Hkw & Hs).
      econstructor; eauto.
  - induction 1 as [w|h rest kind keyword kw w w1 w2 Hkind Hattr Hkeyword Hkw Hs _ IH];
      simpl; [reflexivity|].
    unfold bindM at 1. unfold suggest_hparam, bindM, lift, getattr.
    rewrite Hkind, Hattr, Hkeyword, Hkw, Hs. exact IH.
Qed.

(** C6: when the loop over the descriptor list ends without raising,
    every entry was taken, in the order of the list: the suggestion
    method named by its [type] was called with its [keyword] mapping as
    it stands, and the trial has a value for the parameter each entry
    names. *)
Theorem every_entry_is_sampled (hps : list json) (w w' : world) :
  for_each_hparam env study n hps w = (Ok (), w') ->
  sampled env study n hps w w' /\
  forall hparam, In hparam hps ->
    exists kw pname,
      getitem hparam "keyword" = Ok (JObj kw) /\
      assoc "name" kw = Some (JStr pname) /\
      has_value study n pname w'.
Proof.
  intros H. split; [apply for_each_hparam_sampled; exact H|].
  revert w H. induction hps as [|h rest IH]; simpl; intros w H hparam Hin; [contradiction|].
  apply bindM_Ok in H. destruct H as ([] & w1 & H1 & H).
  destruct Hin as [<-|Hin]; [|eapply IH; eassumption].
  apply suggest_hparam_Ok in H1.
  destruct H1 as (kind & keyword & kw & _ & _ & Hkeyword & Hkw & Hs).
  apply Trial_suggest_Ok in Hs. destruct Hs as (pname & v & Hname & _ & Hval).
  destruct keyword; try discriminate. inversion Hkw; subst.
  exists kw, pname. repeat split; try assumption.
  pose proof (for_each_hparam_keeps_value pname rest w1 Hval) as Hk.
  rewrite H in Hk. exact Hk.
Qed.

End SamplingClaims.

Lemma every_entry_is_sampled_witness :
  let hps := [Example.lr_descriptor] in
  let w := Example.world_started in
  let w' := snd (for_each_hparam Example.env0 Example.demo 0 hps w) in
  sampled Example.env0 Example.demo 0 hps w w' /\
  forall hparam, In hparam hps ->
    exists kw pname,
      getitem hparam "keyword" = Ok (JObj kw) /\
      assoc "name" kw = Some (JStr pname) /\
      has_value Example.demo 0 pname w'.
Proof.
  apply (every_entry_is_sampled Example.env0 Example.demo 0 [Example.lr_descriptor]
           Example.world_started).
  vm_compute. reflexivity.
Defined.

(** ** A descriptor of an unknown kind *)

Lemma raises_only_bind {A B : Type} (E : error -> bool) (P : world -> Prop)
    (m : M A) (k : A -> M B) :
  raises_only E P m -> (forall a, raises_only E P (k a)) -> raises_only E P (bindM m k).
Proof.
  intros Hm Hk w H. unfold bindM. specialize (Hm w H).
  destruct (m w) as [[a|e] w1]; simpl in *.
  - apply Hk. tauto.
  - destruct Hm as [HP He]. split; [assumption|].
    intros e' He'. inversion He'; subst. apply He. reflexivity.
Qed.

Lemma raises_only_lift {A : Type} (E : error -> bool) (P : world -> Prop) (r : result A) :
  (forall e, r = Raise e -> E e = true) -> raises_only E P (lift r).
Proof. intros Hr w H. split; [exact H | exact Hr]. Qed.

Lemma getitem_raises (doc : json) (key : string) (e : error) :
  getitem doc key = Raise e -> MalformedSpecError e = true.
Proof.
  unfold getitem. destruct doc; try (intros H; inversion H; reflexivity).
  destruct (assoc key kvs); intros H; inversion H; reflexivity.
Qed.

Lemma number_lt_next (ts : list TrialRecord) (t : TrialRecord) :
  In t ts -> number t < next_number ts.
Proof.
  unfold next_number. induction ts as [|t0 rest IH]; simpl; [contradiction|].
  intros [<-|Hin]; [lia | specialize (IH Hin); lia].
Qed.

Lemma find_trial_last (n : nat) (old : list TrialRecord) (t : TrialRecord) :
  (forall t', In t' old -> number t' <> n) -> number t = n ->
  find_trial n (old ++ [t]) = Some t.
Proof.
  unfold find_trial. intros Hold Hn.
  induction old as [|t0 rest IH]; simpl.
  - rewrite Hn, Nat.eqb_refl. reflexivity.
  - destruct (Nat.eqb (number t0) n) eqn:H0.
    + apply Nat.eqb_eq in H0. exfalso. apply (Hold t0); [left; reflexivity | assumption].
    + apply IH. intros t' Hin. apply Hold. right. assumption.
Qed.

Lemma update_trial_last (n : nat) (f : TrialRecord -> TrialRecord)
    (old : list TrialRecord) (t : TrialRecord) :
  (forall t', In t' old -> number t' <> n) -> number t = n ->
  update_trial n f (old ++ [t]) = old ++ [f t].
Proof.
  unfold update_trial. intros Hold Hn.
  induction old as [|t0 rest IH]; simpl.
  - rewrite Hn, Nat.eqb_refl. reflexivity.
  - destruct (Nat.eqb (number t0) n) eqn:H0.
    + apply Nat.eqb_eq in H0. exfalso. apply (Hold t0); [left; reflexivity | assumption].
    + f_equal. apply IH. intros t' Hin. apply Hold. right. assumption.
Qed.

Lemma malformed_is_fatal (e : error) : MalformedSpecError e = true -> fatal e = true.
Proof. destruct e; simpl; intros H; congruence. Qed.

Section UnknownKind.

Context (env : Env) (study : Study) (old : list TrialRecord) (n : nat)
        (f : gmap string node).

Hypothesis fresh : forall t, In t old -> number t <> n.

Lemma Trial_suggest_running method kw :
  raises_only MalformedSpecError (running_last study old n f)
    (Trial_suggest env study n method kw).
Proof using fresh.
  intros w Hw. pose proof Hw as (Hfs & t & Hts & Hn & Hst).
  unfold Trial_suggest.
  destruct (assoc "name" kw) as [[| | | |pname| |]|];
    try (split; [exact Hw | intros e He; inversion He; reflexivity]).
  rewrite Hts, (find_trial_last n old t fresh Hn).
  destruct (suggest env _ _ _ _ _) as [v|];
    [|split; [exact Hw | intros e He; inversion He; reflexivity]].
  simpl. split; [|intros e He; discriminate].
  split; [rewrite fs_set_trials; exact Hfs|].
  rewrite update_trial_last by assumption.
  eexists. split; [|split].
  - apply trials_of_set_trials_same. rewrite Hts. destruct old; discriminate.
  - exact Hn.
  - exact Hst.
Qed.

Lemma suggest_hparam_running h :
  raises_only MalformedSpecError (running_last study old n f) (suggest_hparam env study n h).
Proof using fresh.
  unfold suggest_hparam.
  apply raises_only_bind; [apply raises_only_lift, getitem_raises | intros kind].
  apply raises_only_bind; [apply raises_only_lift | intros method].
  { unfold getattr. intros e. destruct (trial_attrs env _); intros H; inversion H; reflexivity. }
  apply raises_only_bind; [apply raises_only_lift, getitem_raises | intros keyword].
  apply raises_only_bind; [apply raises_only_lift | intros kw].
  { intros e. destruct keyword; simpl; intros H; inversion H; reflexivity. }
  apply Trial_suggest_running.
Qed.

Lemma suggest_hparam_unknown h kind w :
  getitem h "type" = Ok kind ->
  trial_attrs env ("suggest_" +:+ py_str (repr env) kind) = false ->
  suggest_hparam env study n h w
  = (Raise (AttributeError ("suggest_" +:+ py_str (repr env) kind)), w).
Proof.
  intros Hkind Hattr. unfold suggest_hparam, bindM, lift, getattr.
  rewrite Hkind, Hattr. reflexivity.
Qed.

Lemma for_each_hparam_unknown hps h kind :
  In h hps ->
  getitem h "type" = Ok kind ->
  trial_attrs env ("suggest_" +:+ py_str (repr env) kind) = false ->
  forall w, running_last study old n f w ->
    exists e w', for_each_hparam env study n hps w = (Raise e, w') /\
                 MalformedSpecError e = true /\ running_last study old n f w'.
Proof using fresh.
  intros Hin Hkind Hattr.
  induction hps as [|h0 rest IH]; simpl; [contradiction|]. intros w Hw.
  destruct (suggest_hparam_running h0 w Hw) as [Hw1 He].
  unfold bindM.
  destruct (suggest_hparam env study n h0 w) as [[[]|e] w1] eqn:Hs; simpl in *.
  - destruct Hin as [->|Hin]; [|apply IH; assumption].
    rewrite (suggest_hparam_unknown h kind w Hkind Hattr) in Hs. discriminate.
  - exists e, w1. split; [reflexivity|]. split; [apply He; reflexivity | exact Hw1].
Qed.

End UnknownKind.

Lemma setup_registers (env : Env) (args : Namespace) (w0 w : world) (study : Study) :
  setup env args w0 = (Ok study, w) -> is_Some (db w !! study_key study).
Proof.
  unfold setup. intros H.
  apply bindM_Ok in H. destruct H as ([] & w1 & _ & H).
  apply bindM_Ok in H. destruct H as (cfg & w2 & _ & H).
  apply bindM_Ok in H. destruct H as (p & w3 & _ & H).
  apply bindM_Ok in H. destruct H as (s & w4 & _ & H).
  unfold create_study in H.
  match type of H with
  | context [db ?w5 !! ?k] => destruct (db w5 !! k) as [r|] eqn:Hk
  end.
  - destruct (skip_if_exists args); inversion H; subst. unfold study_key. simpl.
    rewrite Hk. eauto.
  - inversion H; subst. unfold study_key. simpl. rewrite lookup_insert_eq. eauto.
Qed.

Lemma Study_optimize_eq (env : Env) (study : Study) (objective : nat -> M outcome)
    (n_trials : option Z) (timeout : option Q) (fuel started : nat) (elapsed : Q) (w : world) :
  Study_optimize env study objective n_trials timeout fuel started elapsed w =
  if budget_spent n_trials timeout started elapsed then (Finished, w)
  else
    match fuel with
    | O => (Interrupted, w)
    | S fuel' =>
        match Study_ask study w with
        | (Raise e, w1) => (Failed e, w1)
        | (Ok n, w1) =>
            let elapsed' := (elapsed + trial_seconds env n)%Q in
            match objective n w1 with
            | (Ok (Metric v), w2) =>
                match Study_tell study n (Some v) COMPLETE w2 with
                | (Raise e, w3) => (Failed e, w3)
                | (Ok _, w3) =>
                    Study_optimize env study objective n_trials timeout
                      fuel' (S started) elapsed' w3
                end
            | (Ok Cancelled, w2) =>
                Study_optimize env study objective n_trials timeout
                  fuel' (S started) elapsed' w2
            | (Raise e, w2) =>
                let w3 := snd (Study_tell study n None FAILED w2) in
                if fatal e then (Failed e, w3)
                else Study_optimize env study objective n_trials timeout
                       fuel' (S started) elapsed' w3
            end
        end
    end.
Proof. destruct fuel; reflexivity. Qed.

Section UnknownKindClaim.

Context (env : Env).

(** C2: a descriptor list with an entry of an unrecognized kind makes
    the run fail with a [MalformedSpecError], and the failure ends the
    run; it is met inside the first trial the run starts: that trial is
    created and ends FAILED, no output directory is made and no training
    is called for it, and no other trial is started. *)
Theorem unknown_kind_fails_first_trial (args : Namespace) (w0 w : world) (study : Study)
    (fuel : nat) (doc : json) (hps : list json) (hparam kind : json) :
  setup env args w0 = (Ok study, w) ->
  budget_spent (n_trials args) (timeout args) 0 0 = false ->
  json_load (fs w) (hparam_path args) = Ok doc ->
  iterate doc = Ok hps ->
  In hparam hps ->
  getitem hparam "type" = Ok kind ->
  trial_attrs env ("suggest_" +:+ py_str (repr env) kind) = false ->
  exists e t w',
    optimize_hyperparameters env args (S fuel) w0 = (Failed e, w') /\
    MalformedSpecError e = true /\
    fs w' = fs w /\
    trials_of w' study = trials_of w study ++ [t] /\
    number t = next_number (trials_of w study) /\
    state t = FAILED.
Proof.
  intros Hsetup Hbudget Hload Hiter Hin Hkind Hattr.
  destruct (setup_registers env args w0 w study Hsetup) as [r Hr].
  unfold optimize_hyperparameters. rewrite Hsetup.
  rewrite Study_optimize_eq, Hbudget.
  unfold Study_ask. rewrite Hr.
  assert (Hold : trials_of w study = trials r) by (unfold trials_of; rewrite Hr; reflexivity).
  rewrite Hold.
  set (n := next_number (trials r)).
  set (t0 := {| number := n; params := []; intermediate_values := [];
                final_value := None; state := RUNNING |}).
  set (w1 := set_trials w study (trials r ++ [t0])).
  assert (Hfresh : forall t, In t (trials r) -> number t <> n).
  { intros t Ht. apply number_lt_next in Ht. unfold n. lia. }
  assert (Hw1 : running_last study (trials r) n (fs w) w1).
  { split; [apply fs_set_trials|]. exists t0. repeat split.
    unfold w1. rewrite trials_of_set_trials.
    destruct (decide (study_key study = study_key study)); [|congruence].
    rewrite Hr. reflexivity. }
  destruct (for_each_hparam_unknown env study (trials r) n (fs w) Hfresh hps hparam kind
              Hin Hkind Hattr w1 Hw1) as (e & w2 & Hloop & He & Hw2).
  assert (Hobj : _objective env args study n (hparam_path args) w1 = (Raise e, w2)).
  { unfold _objective, sample_hparams, bindM, lift.
    destruct Hw1 as [Hfs1 _]. rewrite Hfs1, Hload, Hiter. fold (bindM (A:=unit) (B:=unit)).
    rewrite Hloop. reflexivity. }
  cbv zeta. rewrite Hobj. rewrite (malformed_is_fatal e He).
  destruct Hw2 as (Hfs2 & t & Hts & Hn & Hst).
  exists e.
  exists {| number := number t; params := params t;
            intermediate_values := intermediate_values t;
            final_value := None; state := FAILED |}.
  eexists. split; [reflexivity|]. split; [exact He|].
  unfold Study_tell. rewrite Hts, (find_trial_last n (trials r) t Hfresh Hn), Hst. simpl.
  rewrite fs_set_trials, update_trial_last by assumption.
  repeat split; try assumption.
  apply trials_of_set_trials_same. rewrite Hts. destruct (trials r); discriminate.
Qed.

End UnknownKindClaim.

(** The run on the descriptor file [bad.json], whose second entry has the
    kind [bogus]: trial 0 was created, [lr] was sampled for it, and it
    is left FAILED. *)
Example unknown_kind_run :
  optimize_hyperparameters Example.env0
    (add_subparser (Example.with_hparams Example.cli0 "bad.json")) 1 Example.world0
  = (Failed (AttributeError "suggest_bogus"),
     set_trials
       (snd (setup Example.env0
               (add_subparser (Example.with_hparams Example.cli0 "bad.json")) Example.world0))
       Example.demo
       [{| number := 0; params := [("lr", JFloat (1 # 1000))]; intermediate_values := [];
           final_value := None; state := FAILED |}]).
Proof. vm_compute. reflexivity. Qed.

Lemma unknown_kind_counterexample :
  In Example.bogus_descriptor [Example.lr_descriptor; Example.bogus_descriptor] /\
  trial_attrs Example.env0 "suggest_bogus" = false /\
  ~ fails_before_any_trial Example.env0
      (add_subparser (Example.with_hparams Example.cli0 "bad.json")) 1 Example.world0.
Proof.
  split; [right; left; reflexivity|]. split; [reflexivity|].
  intros (e & _ & _ & H). specialize (H Example.demo).
  rewrite unknown_kind_run in H. vm_compute in H. discriminate.
Qed.

Lemma unknown_kind_fails_first_trial_witness :
  let args := add_subparser (Example.with_hparams Example.cli0 "bad.json") in
  let w := snd (setup Example.env0 args Example.world0) in
  exists e t w',
    optimize_hyperparameters Example.env0 args 1 Example.world0 = (Failed e, w') /\
    MalformedSpecError e = true /\
    fs w' = fs w /\
    trials_of w' Example.demo = trials_of w Example.demo ++ [t] /\
    number t = next_number (trials_of w Example.demo) /\
    state t = FAILED.
Proof.
  apply (unknown_kind_fails_first_trial Example.env0
           (add_subparser (Example.with_hparams Example.cli0 "bad.json"))
           Example.world0 _ Example.demo 0
           (JList [Example.lr_descriptor; Example.bogus_descriptor])
           [Example.lr_descriptor; Example.bogus_descriptor]
           Example.bogus_descriptor (JStr "bogus")).
  - vm_compute. reflexivity.
  - reflexivity.
  - vm_compute. reflexivity.
  - reflexivity.
  - right. left. reflexivity.
  - reflexivity.
  - reflexivity.
Defined.

(** ** A study without pruner *)

Lemma trials_of_key (w : world) (s s' : Study) :
  study_key s = study_key s' -> trials_of w s = trials_of w s'.
Proof. unfold trials_of. intros ->. reflexivity. Qed.

Lemma in_update_trial (n : nat) (f : TrialRecord -> TrialRecord) (ts : list TrialRecord)
    (t : TrialRecord) :
  In t (update_trial n f ts) -> In t ts \/ exists t0, In t0 ts /\ t = f t0.
Proof.
  unfold update_trial. intros H. apply in_map_iff in H. destruct H as (t0 & Ht & Hin).
  destruct (Nat.eqb (number t0) n); subst; eauto.
Qed.

Lemma find_trial_In (n : nat) (ts : list TrialRecord) (t : TrialRecord) :
  find_trial n ts = Some t -> In t ts.
Proof. unfold find_trial. intros H. apply find_some in H. tauto. Qed.

Section NoPruner.

Context (env : Env) (study : Study) (w0 : world).

Hypothesis no_pruner : pruner study = None.

Lemma no_new_pruned_set (w : world) (ts : list TrialRecord) :
  no_new_pruned w0 w ->
  (forall t, In t ts -> next_number (trials_of w0 study) <= number t -> state t <> PRUNED) ->
  no_new_pruned w0 (set_trials w study ts).
Proof.
  intros H Hts s t Hin Hge. rewrite trials_of_set_trials in Hin.
  destruct (decide (study_key study = study_key s)) as [He|Hne].
  - destruct (db w !! study_key study); [|contradiction].
    apply Hts; [assumption|]. rewrite (trials_of_key w0 study s He). assumption.
  - apply (H s); assumption.
Qed.

Lemma no_new_pruned_update (w : world) (n : nat) (f : TrialRecord -> TrialRecord) :
  no_new_pruned w0 w ->
  (forall t, In t (trials_of w study) ->
             number (f t) = number t /\ (state (f t) = PRUNED -> state t = PRUNED)) ->
  no_new_pruned w0 (set_trials w study (update_trial n f (trials_of w study))).
Proof.
  intros H Hf. apply no_new_pruned_set; [assumption|].
  intros t Hin Hge. apply in_update_trial in Hin.
  destruct Hin as [Hin|(t0 & Hin & ->)]; [apply (H study); assumption|].
  destruct (Hf t0 Hin) as [Hn Hs]. intros Hp.
  apply (H study t0 Hin); [rewrite <- Hn; assumption | auto].
Qed.

Lemma Study_ask_no_pruned : keeps (no_new_pruned w0) (Study_ask study).
Proof.
  intros w H. unfold Study_ask.
  destruct (db w !! study_key study) as [r|] eqn:Hr; [|exact H].
  simpl. apply no_new_pruned_set; [assumption|].
  intros t Hin Hge. apply in_app_or in Hin. destruct Hin as [Hin|[<-|[]]].
  - apply (H study); [|assumption]. unfold trials_of. rewrite Hr. assumption.
  - discriminate.
Qed.

Lemma Study_tell_no_pruned n v o :
  o <> PRUNED -> keeps (no_new_pruned w0) (Study_tell study n v o).
Proof.
  intros Ho w H. unfold Study_tell.
  destruct (find_trial n (trials_of w study)) as [t|]; [|exact H].
  destruct (state t); try exact H.
  simpl. apply no_new_pruned_update; [assumption|].
  intros t0 _. simpl. split; [reflexivity | intros Hp; contradiction].
Qed.

Lemma Trial_suggest_no_pruned n method kw :
  keeps (no_new_pruned w0) (Trial_suggest env study n method kw).
Proof.
  intros w H. unfold Trial_suggest.
  destruct (assoc "name" kw) as [[| | | |pname| |]|]; try exact H.
  destruct (find_trial n (trials_of w study)); [|exact H].
  destruct (suggest env _ _ _ _ _); [|exact H].
  simpl. apply no_new_pruned_update; [assumption|].
  intros t0 _. simpl. auto.
Qed.

Lemma set_final_no_pruned n v : keeps (no_new_pruned w0) (set_final study n v).
Proof.
  intros w H. unfold set_final. simpl. apply no_new_pruned_update; [assumption|].
  intros t0 _. simpl. auto.
Qed.

(** Without a pruner a report never stops the trial. *)
Lemma Study_report_no_pruned n step v :
  keeps (no_new_pruned w0) (Study_report env study n step v).
Proof using no_pruner.
  intros w H. unfold Study_report. rewrite no_pruner.
  destruct (find_trial n (trials_of w study)) as [t|] eqn:Ht; [|exact H].
  simpl. apply no_new_pruned_set; [assumption|].
  intros t' Hin Hge. apply in_update_trial in Hin.
  destruct Hin as [Hin|(t0 & Hin & ->)]; [apply (H study); assumption|].
  simpl. simpl in Hge. apply (H study t); [eapply find_trial_In; eassumption | assumption].
Qed.

Lemma forward_reports_no_pruned n rs :
  keeps (no_new_pruned w0) (forward_reports env study n rs).
Proof using no_pruner.
  induction rs as [|[step v] rest IH]; simpl; [apply keeps_ret|].
  apply keeps_bind; [apply Study_report_no_pruned|].
  intros [|]; [apply keeps_ret | exact IH].
Qed.

Lemma AllenNLPExecutor_run_no_pruned n config dir metrics :
  keeps (no_new_pruned w0) (AllenNLPExecutor_run env study n config dir metrics).
Proof using no_pruner.
  intros w H. unfold AllenNLPExecutor_run.
  destruct (os_path_exists (fs w) dir); [exact H|].
  set (w1 := set_fs w (<[dir := Dir]> (fs w))).
  assert (H1 : no_new_pruned w0 w1) by exact H.
  destruct (find_trial n (trials_of w1 study)) as [t|]; [|exact H1].
  revert H1. generalize w1.
  apply keeps_bind; [apply forward_reports_no_pruned|].
  intros [v|].
  - apply keeps_bind; [apply set_final_no_pruned | intros _; apply keeps_ret].
  - destruct (final _); [apply keeps_ret|].
    apply keeps_bind; [apply Study_tell_no_pruned; discriminate | intros _; apply keeps_raise].
Qed.

Lemma objective_no_pruned args n path :
  keeps (no_new_pruned w0) (_objective env args study n path).
Proof using no_pruner.
  unfold _objective. apply keeps_bind; [|intros _; apply AllenNLPExecutor_run_no_pruned].
  unfold sample_hparams.
  apply keeps_bind; [intros w H; exact H | intros doc].
  apply keeps_bind; [apply keeps_lift | intros hps].
  induction hps as [|h rest IH]; simpl; [apply keeps_ret|].
  apply keeps_bind; [|intros _; exact IH].
  unfold suggest_hparam.
  repeat (apply keeps_bind; [apply keeps_lift | intros ?]).
  apply Trial_suggest_no_pruned.
Qed.

Lemma Study_optimize_no_pruned args fuel :
  forall started elapsed w,
    no_new_pruned w0 w ->
    no_new_pruned w0
      (snd (Study_optimize env study (fun n => _objective env args study n (hparam_path args))
              (n_trials args) (timeout args) fuel started elapsed w)).
Proof using no_pruner.
  induction fuel as [|fuel IH]; intros started elapsed w H;
    rewrite Study_optimize_eq;
    destruct (budget_spent _ _ _ _); try exact H.
  pose proof (Study_ask_no_pruned w H) as Hask.
  destruct (Study_ask study w) as [[n|e] w1]; simpl in Hask; [|exact Hask].
  pose proof (objective_no_pruned args n (hparam_path args) w1 Hask) as Hobj.
  cbv zeta.
  destruct (_objective env args study n (hparam_path args) w1) as [[[v|]|e] w2];
    simpl in Hobj.
  - pose proof (Study_tell_no_pruned n (Some v) COMPLETE ltac:(discriminate) w2 Hobj) as Ht.
    destruct (Study_tell study n (Some v) COMPLETE w2) as [[[]|e] w3]; simpl in Ht.
    + apply IH. exact Ht.
    + exact Ht.
  - apply IH. exact Hobj.
  - pose proof (Study_tell_no_pruned n None FAILED ltac:(discriminate) w2 Hobj) as Ht.
    destruct (fatal e); [exact Ht | apply IH; exact Ht].
Qed.

End NoPruner.

Lemma no_new_pruned_start (w0 w : world) :
  (forall s, trials_of w s = trials_of w0 s) -> no_new_pruned w0 w.
Proof.
  intros Hsame s t Hin Hge. rewrite Hsame in Hin.
  apply number_lt_next in Hin. lia.
Qed.

Lemma create_study_trials (env : Env) study_name d storage p s load (w : world) :
  forall s', trials_of (snd (create_study env study_name d storage p s load w)) s'
             = trials_of w s'.
Proof.
  intros s'. unfold create_study. cbv zeta.
  match goal with
  | |- context [db w !! ?k0] => set (k := k0)
  end.
  destruct (db w !! k) as [r|] eqn:Hk.
  - destruct load; reflexivity.
  - simpl. unfold trials_of. simpl.
    destruct (decide (k = study_key s')) as [He|Hne].
    + rewrite <- He, lookup_insert_eq, Hk. reflexivity.
    + rewrite lookup_insert_ne by assumption. reflexivity.
Qed.

Lemma create_study_pruner (env : Env) study_name d storage p s load (w w1 : world)
    (study : Study) :
  create_study env study_name d storage p s load w = (Ok study, w1) -> pruner study = p.
Proof.
  unfold create_study. cbv zeta.
  match goal with
  | |- context [db w !! ?k0] => destruct (db w !! k0)
  end.
  - destruct load; intros H; inversion H; reflexivity.
  - intros H; inversion H; reflexivity.
Qed.

Section PrunerClaim.

Context (env : Env).

(** C8: when the configuration has no [pruner] section, the study is
    made without pruner, and no trial of the run is ever PRUNED:
    wherever the run stands or stops, a trial created since it began is
    in no study in state PRUNED. *)
Theorem no_pruner_section_no_pruned_trial (args : Namespace) (w : world)
    (f : gmap string node) (cfg : json) (fuel : nat) :
  os_makedirs (fs w) (serialization_dir args) = Ok f ->
  load_optuna_config f (optuna_param_path args) = Ok cfg ->
  contains "pruner" cfg = Ok false ->
  build_pruner env cfg = Ok None /\
  forall (s : Study) (t : TrialRecord),
    In t (trials_of (snd (optimize_hyperparameters env args fuel w)) s) ->
    next_number (trials_of w s) <= number t ->
    state t <> PRUNED.
Proof.
  intros Hmk Hcfg Hno.
  assert (Hp : build_pruner env cfg = Ok None).
  { unfold build_pruner. rewrite Hno. reflexivity. }
  split; [exact Hp|].
  change (no_new_pruned w (snd (optimize_hyperparameters env args fuel w))).
  unfold optimize_hyperparameters.
  destruct (build_sampler env cfg) as [s|e] eqn:Hs.
  - rewrite (setup_unfold env args w f cfg None s Hmk Hcfg Hp Hs).
    pose proof (create_study_trials env (study_name args) (args_direction args) (storage args)
                  None s (skip_if_exists args) (set_fs w f)) as Htrials.
    destruct (create_study env (study_name args) (args_direction args) (storage args)
                None s (skip_if_exists args) (set_fs w f)) as [[study|e] w1] eqn:Hcreate;
      simpl in Htrials.
    + apply Study_optimize_no_pruned.
      * eapply create_study_pruner. eassumption.
      * apply no_new_pruned_start. exact Htrials.
    + apply no_new_pruned_start. exact Htrials.
  - assert (Hsetup : setup env args w = (Raise e, set_fs w f)).
    { unfold setup, bindM, lift. rewrite Hmk. simpl. rewrite Hcfg, Hp, Hs. reflexivity. }
    rewrite Hsetup. apply no_new_pruned_start. reflexivity.
Qed.

End PrunerClaim.

Lemma no_pruner_section_no_pruned_trial_witness :
  build_pruner Example.env0 (JObj []) = Ok None /\
  forall (s : Study) (t : TrialRecord),
    In t (trials_of
            (snd (optimize_hyperparameters Example.env0 (add_subparser Example.cli0) 3
                    Example.world0)) s) ->
    next_number (trials_of Example.world0 s) <= number t ->
    state t <> PRUNED.
Proof.
  apply (no_pruner_section_no_pruned_trial Example.env0 (add_subparser Example.cli0)
           Example.world0 (<["out" := Dir]> Example.fs0) (JObj []) 3);
    vm_compute; reflexivity.
Defined.

(** ** The budget of the loop *)

Lemma Study_optimize_more_fuel (env : Env) (study : Study) (objective : nat -> M outcome)
    (n_trials : option Z) (timeout : option Q) (fuel : nat) :
  forall started elapsed w st w',
    Study_optimize env study objective n_trials timeout fuel started elapsed w = (st, w') ->
    st <> Interrupted ->
    forall extra,
      Study_optimize env study objective n_trials timeout (fuel + extra) started elapsed w
      = (st, w').
Proof.
  induction fuel as [|fuel IH]; intros started elapsed w st w' H Hst extra;
    rewrite Study_optimize_eq in H; rewrite Study_optimize_eq;
    destruct (budget_spent n_trials timeout started elapsed); try exact H.
  - inversion H; subst. contradiction.
  - simpl. cbv zeta in *.
    destruct (Study_ask study w) as [[n|e] w1]; [|exact H].
    destruct (objective n w1) as [[[v|]|e] w2].
    + destruct (Study_tell study n (Some v) COMPLETE w2) as [[[]|e] w3]; [|exact H].
      apply IH; assumption.
    + apply IH; assumption.
    + destruct (fatal e); [exact H | apply IH; assumption].
Qed.

(** The loop with [n_trials] set ends by itself: it is never the
    interrupt that ends it, once the interrupt leaves it the time for
    [n_trials] trials. *)
Lemma n_trials_ends_loop (env : Env) (study : Study) (objective : nat -> M outcome)
    (n : Z) (timeout : option Q) (fuel : nat) :
  forall started elapsed w,
    (n <= Z.of_nat (started + fuel))%Z ->
    fst (Study_optimize env study objective (Some n) timeout fuel started elapsed w)
    <> Interrupted.
Proof.
  induction fuel as [|fuel IH]; intros started elapsed w Hn;
    rewrite Study_optimize_eq; unfold budget_spent.
  - replace (started + 0) with started in Hn by lia.
    apply Z.leb_le in Hn. rewrite Hn. simpl. discriminate.
  - destruct (_ || _)%bool; [simpl; discriminate|]. cbv zeta.
    assert (Hn' : (n <= Z.of_nat (S started + fuel))%Z) by lia.
    destruct (Study_ask study w) as [[k|e] w1]; [|simpl; discriminate].
    destruct (objective k w1) as [[[v|]|e] w2].
    + destruct (Study_tell study k (Some v) COMPLETE w2) as [[[]|e] w3];
        [apply IH; assumption | simpl; discriminate].
    + apply IH; assumption.
    + destruct (fatal e); [simpl; discriminate | apply IH; assumption].
Qed.

Lemma optimize_hyperparameters_more_fuel (env : Env) (args : Namespace) (fuel : nat)
    (w w' : world) (st : status) :
  optimize_hyperparameters env args fuel w = (st, w') ->
  st <> Interrupted ->
  forall extra, optimize_hyperparameters env args (fuel + extra) w = (st, w').
Proof.
  unfold optimize_hyperparameters. intros H Hst extra.
  destruct (setup env args w) as [[study|e] w1]; [|exact H].
  apply Study_optimize_more_fuel; assumption.
Qed.

(** Whatever the command line, the study and the trainer: without
    [--n-trials] the run is never ended by the interrupt, once the
    interrupt leaves it the time for 50 trials. *)
Lemma default_n_trials_bounds_every_run (env : Env) (c : CommandLine) (fuel : nat)
    (w : world) :
  cli_n_trials c = None ->
  50 <= fuel ->
  n_trials (add_subparser c) = Some 50%Z /\
  fst (optimize_hyperparameters env (add_subparser c) fuel w) <> Interrupted.
Proof.
  intros Hc Hfuel.
  assert (Hn : n_trials (add_subparser c) = Some 50%Z) by (simpl; rewrite Hc; reflexivity).
  split; [exact Hn|].
  unfold optimize_hyperparameters.
  destruct (setup env (add_subparser c) w) as [[study|e] w1]; [|simpl; discriminate].
  rewrite Hn. apply n_trials_ends_loop. lia.
Qed.

(** C4: a command line that gives neither [--n-trials] nor [--timeout]
    does not run until it is interrupted: [n_trials] is 50 by default,
    and however late the interrupt comes the run ends by itself after
    50 trials. *)
Theorem default_n_trials_ends_the_run :
  cli_n_trials Example.cli0 = None /\
  cli_timeout Example.cli0 = None /\
  n_trials (add_subparser Example.cli0) = Some 50%Z /\
  timeout (add_subparser Example.cli0) = None /\
  forall extra,
    fst (optimize_hyperparameters Example.env0 (add_subparser Example.cli0) (50 + extra)
           Example.world0) = Finished /\
    length (trials_of
              (snd (optimize_hyperparameters Example.env0 (add_subparser Example.cli0)
                      (50 + extra) Example.world0))
              Example.demo) = 50.
Proof.
  repeat split; try reflexivity;
    rewrite (optimize_hyperparameters_more_fuel Example.env0 (add_subparser Example.cli0) 50
               Example.world0
               (snd (optimize_hyperparameters Example.env0 (add_subparser Example.cli0) 50
                       Example.world0))
               Finished);
    try discriminate; vm_compute; reflexivity.
Qed.

(** * Further properties of the code *)

(** ** Before the study exists *)



(** X1: when the sampler/pruner configuration cannot be loaded or built,
    the run fails with the first failure met, in the order file, pruner,
    sampler; the serialization directory has been made by then, but no
    study is created and no trial is started. *)
Theorem bad_configuration_aborts_before_study (env : Env) (args : Namespace) (w : world)
    (f : gmap string node) (e : error) :
  os_makedirs (fs w) (serialization_dir args) = Ok f ->
  (load_optuna_config f (optuna_param_path args) = Raise e \/
   exists cfg, load_optuna_config f (optuna_param_path args) = Ok cfg /\
     (build_pruner env cfg = Raise e \/
      exists p, build_pruner env cfg = Ok p /\ build_sampler env cfg = Raise e)) ->
  forall fuel,
    optimize_hyperparameters env args fuel w = (Failed e, set_fs w f) /\
    db (set_fs w f) = db w.
Proof.
  intros Hmk Hbad fuel. split; [|reflexivity].
  unfold optimize_hyperparameters, setup, bindM, lift. rewrite Hmk. simpl.
  destruct Hbad as [Hload|(cfg & Hload & [Hp|(p & Hp & Hs)])]; rewrite Hload.
  - reflexivity.
  - rewrite Hp. reflexivity.
  - rewrite Hp, Hs. reflexivity.
Qed.

Lemma bad_configuration_aborts_before_study_witness :
  optimize_hyperparameters Example.env0 (add_subparser Cases.cli1) 3 Cases.world1
  = (Failed (AttributeError "NoSuchPruner"),
     set_fs Cases.world1 (<["out" := Dir]> Cases.fs1)) /\
  db (set_fs Cases.world1 (<["out" := Dir]> Cases.fs1)) = db Cases.world1.
Proof.
  generalize 3.
  apply (bad_configuration_aborts_before_study Example.env0 (add_subparser Cases.cli1)
           Cases.world1 (<["out" := Dir]> Cases.fs1) (AttributeError "NoSuchPruner")).
  - reflexivity.
  - right. exists Cases.bad_optuna_config. split; [vm_compute; reflexivity|].
    left. reflexivity.
Defined.


(** ** The sections of the configuration *)





(** ** The descriptor document *)

(** X5: what the objective makes of the descriptor file.  A file that
    cannot be read or decoded raises at once; so does a document that
    is a number, a boolean or [null], and an object or a string that is
    not empty, with a [TypeError]; in all these cases the world is as
    it was.  An empty object and an empty string pass for an empty
    list: nothing is sampled and the trial goes to the executor.  Only
    a list has its entries taken. *)
Theorem descriptor_document_shapes (env : Env) (args : Namespace) (study : Study)
    (n : nat) (path : string) (w : world) :
  match json_load (fs w) path with
  | Raise e => _objective env args study n path w = (Raise e, w)
  | Ok (JList l) => sample_hparams env study n path w = for_each_hparam env study n l w
  | Ok (JObj []) | Ok (JStr EmptyString) =>
      _objective env args study n path w
      = AllenNLPExecutor_run env study n (param_path args)
          (trial_dir (serialization_dir args) n) (metrics args) w
  | Ok _ => _objective env args study n path w = (Raise TypeError, w)
  end.
Proof.
  unfold _objective, sample_hparams, bindM, lift. cbv beta.
  destruct (json_load (fs w) path) as [doc|e]; [|reflexivity].
  destruct doc as [| | | |s|l|kvs]; try reflexivity.
  - destruct s; reflexivity.
  - destruct kvs as [|[k v] rest]; reflexivity.
Qed.

Section Entries.

Context (env : Env) (study : Study) (n : nat).

(** X6: an entry that is not an object with a [type] naming a
    suggestion method of the trial and an object for [keyword] is
    rejected with a [MalformedSpecError] before the sampler is asked
    anything: the world is as it was. *)
Theorem malformed_entry_is_rejected (hparam : json) (w : world) :
  (forall kind kw,
     getitem hparam "type" = Ok kind ->
     trial_attrs env ("suggest_" +:+ py_str (repr env) kind) = true ->
     getitem hparam "keyword" = Ok (JObj kw) -> False) ->
  exists e, suggest_hparam env study n hparam w = (Raise e, w) /\
            MalformedSpecError e = true.
Proof.
  intros Hbad. unfold suggest_hparam, bindM, lift, getattr.
  destruct (getitem hparam "type") as [kind|e] eqn:Hkind.
  - destruct (trial_attrs env ("suggest_" +:+ py_str (repr env) kind)) eqn:Hattr.
    + destruct (getitem hparam "keyword") as [keyword|e] eqn:Hkey.
      * destruct keyword as [| | | | | |kw];
          try (exists TypeError; split; reflexivity).
        exfalso. eapply Hbad; eauto.
      * exists e. split; [reflexivity | eapply getitem_raises; eassumption].
    + eexists. split; reflexivity.
  - exists e. split; [reflexivity | eapply getitem_raises; eassumption].
Qed.

(** X7: the loop over the entries composes: a list in two parts is taken
    as the first part, then the second from the world the first left.
    So the loop succeeds on the whole exactly when it succeeds on the
    parts in turn, and when it raises on the first part it raises the
    same from the same world whatever follows: the entries after a
    failing one are never looked at. *)
Theorem for_each_hparam_app (front back : list json) (w : world) :
  for_each_hparam env study n (front ++ back) w
  = bindM (for_each_hparam env study n front)
      (fun _ => for_each_hparam env study n back) w /\
  (forall e w', for_each_hparam env study n front w = (Raise e, w') ->
                for_each_hparam env study n (front ++ back) w = (Raise e, w')) /\
  (forall w'', for_each_hparam env study n (front ++ back) w = (Ok (), w'') <->
               exists w', for_each_hparam env study n front w = (Ok (), w') /\
                          for_each_hparam env study n back w' = (Ok (), w'')).
Proof.
  assert (Happ : forall w0, for_each_hparam env study n (front ++ back) w0
                 = bindM (for_each_hparam env study n front)
                     (fun _ => for_each_hparam env study n back) w0).
  { induction front as [|h rest IH]; intros w0; simpl; [reflexivity|].
    unfold bindM at 1 2 3.
    destruct (suggest_hparam env study n h w0) as [[[]|e] w1]; [|reflexivity].
    rewrite IH. reflexivity. }
  split; [apply Happ|]. split.
  - intros e w' H. rewrite Happ. unfold bindM. rewrite H. reflexivity.
  - intros w''. rewrite Happ. unfold bindM. split.
    + destruct (for_each_hparam env study n front w) as [[[]|e] w']; [eauto | discriminate].
    + intros (w' & H1 & H2). rewrite H1. exact H2.
Qed.

End Entries.

Lemma malformed_entry_is_rejected_witness :
  exists e,
    suggest_hparam Example.env0 Example.demo 0 Cases.list_keyword_descriptor
      Example.world_started
    = (Raise e, Example.world_started) /\
    MalformedSpecError e = true.
Proof.
  apply (malformed_entry_is_rejected Example.env0 Example.demo 0 Cases.list_keyword_descriptor
           Example.world_started).
  intros kind kw _ _ H. vm_compute in H. discriminate.
Defined.

(** ** The directory of a trial, again *)

Lemma is_prefix_append (a b : string) : is_prefix a (a +:+ b) = true.
Proof. induction a as [|c a IH]; simpl; [reflexivity|]. rewrite Ascii.eqb_refl. exact IH. Qed.

Lemma length_append (a b : string) :
  String.length (a +:+ b) = String.length a + String.length b.
Proof. induction a as [|c a IH]; simpl; [reflexivity | rewrite IH; reflexivity]. Qed.

(** X8: the directory of a trial lies under the serialization directory
    and is never that directory itself: it is [trial_<number>] alone
    when the root is empty, the root followed by [trial_<number>] when
    the root ends with a slash, and the root, a slash and
    [trial_<number>] otherwise. *)
Theorem trial_dir_under_root (root : string) (n : nat) :
  is_prefix root (trial_dir root n) = true /\
  trial_dir root n <> root /\
  (root = "" -> trial_dir root n = "trial_" +:+ str_of_nat n) /\
  (forall r, root = r +:+ "/" -> trial_dir root n = root +:+ "trial_" +:+ str_of_nat n) /\
  (root <> "" -> (forall r, root <> r +:+ "/") ->
   trial_dir root n = root +:+ "/" +:+ "trial_" +:+ str_of_nat n).
Proof.
  destruct (trial_dir_form root) as (sep & Hnone & Hslash & Hform).
  split; [rewrite Hform; apply is_prefix_append|]. split; [|split; [|split]].
  - rewrite Hform. intros Heq. apply (f_equal String.length) in Heq.
    rewrite !length_append in Heq. simpl in Heq. lia.
  - intros Hroot. rewrite Hform, Hnone by auto. subst root. reflexivity.
  - intros r Hr. rewrite Hform, Hnone by eauto. reflexivity.
  - intros Hne Hno. rewrite Hform, (Hslash Hne Hno). reflexivity.
Qed.

(** ** Reading the exported line back *)

Lemma lacks_append (c : ascii) (a b : string) :
  lacks c (a +:+ String c b) = false.
Proof.
  induction a as [|x a IH]; simpl.
  - rewrite Ascii.eqb_refl. reflexivity.
  - rewrite IH. apply andb_false_r.
Qed.

(** Two texts cut at the first [c] are equal part by part. *)
Lemma cut_at_first (c : ascii) (a1 a2 b1 b2 : string) :
  lacks c a1 = true -> lacks c a2 = true ->
  a1 +:+ String c b1 = a2 +:+ String c b2 -> a1 = a2 /\ b1 = b2.
Proof.
  revert a2. induction a1 as [|x a1 IH]; intros [|y a2] H1 H2 Heq; simpl in *.
  - inversion Heq. auto.
  - inversion Heq; subst. rewrite Ascii.eqb_refl in H2. discriminate.
  - inversion Heq; subst. rewrite Ascii.eqb_refl in H1. discriminate.
  - inversion Heq; subst.
    apply andb_true_iff in H1. apply andb_true_iff in H2.
    destruct (IH a2) as [-> ->]; tauto.
Qed.

Lemma lacks_append_both (c : ascii) (a b : string) :
  lacks c a = true -> lacks c b = true -> lacks c (a +:+ b) = true.
Proof.
  induction a as [|x a IH]; simpl; intros Ha Hb; [exact Hb|].
  apply andb_true_iff in Ha. destruct Ha as [Hx Ha]. rewrite Hx. simpl. auto.
Qed.

Section ExportedLine.

Context (env : Env).

Lemma format_item_lacks_space (kv : string * json) :
  plain_item env kv -> lacks " " (format_item env kv) = true.
Proof.
  intros (Hk & _ & Hv). unfold format_item.
  apply lacks_append_both; [exact Hk|]. simpl. exact Hv.
Qed.

Lemma format_item_shown (kv1 kv2 : string * json) :
  plain_item env kv1 -> plain_item env kv2 ->
  format_item env kv1 = format_item env kv2 -> shown env kv1 = shown env kv2.
Proof.
  intros (_ & H1 & _) (_ & H2 & _) Heq. unfold format_item in Heq. simpl in Heq.
  destruct (cut_at_first "=" _ _ _ _ H1 H2 Heq) as [Hk Hv].
  unfold shown. rewrite Hk, Hv. reflexivity.
Qed.

Lemma join_cons (item : string * json) (rest : kwargs) :
  join " " (map (format_item env) (item :: rest)) =
    match rest with
    | [] => format_item env item
    | _ :: _ => format_item env item +:+ String " " (join " " (map (format_item env) rest))
    end.
Proof. destruct rest; reflexivity. Qed.

Lemma format_item_nonempty (kv : string * json) : format_item env kv <> "".
Proof.
  unfold format_item. intros H. apply (f_equal String.length) in H.
  rewrite length_append in H. simpl in H. lia.
Qed.

(** X9: the exported line can be read back: two lists of parameters
    whose names have neither spaces nor equals signs and whose values
    print without spaces give the same line only if they show the same
    names with the same texts of values, in the same order. *)
Theorem exported_line_determines_params (ps1 ps2 : kwargs) :
  Forall (plain_item env) ps1 ->
  Forall (plain_item env) ps2 ->
  join " " (map (format_item env) ps1) = join " " (map (format_item env) ps2) ->
  map (shown env) ps1 = map (shown env) ps2.
Proof.
  revert ps2. induction ps1 as [|i1 r1 IH]; intros [|i2 r2] H1 H2 Heq.
  - reflexivity.
  - exfalso. rewrite join_cons in Heq. simpl in Heq.
    destruct r2; [apply (format_item_nonempty i2); auto|].
    apply (f_equal String.length) in Heq. rewrite length_append in Heq.
    simpl in Heq. lia.
  - exfalso. rewrite join_cons in Heq. simpl in Heq.
    destruct r1; [apply (format_item_nonempty i1); auto|].
    apply (f_equal String.length) in Heq. rewrite length_append in Heq.
    simpl in Heq. lia.
  - inversion H1 as [|? ? Hi1 Hr1]; subst. inversion H2 as [|? ? Hi2 Hr2]; subst.
    rewrite !join_cons in Heq.
    pose proof (format_item_lacks_space i1 Hi1) as Hs1.
    pose proof (format_item_lacks_space i2 Hi2) as Hs2.
    destruct r1 as [|j1 r1], r2 as [|j2 r2].
    + simpl. f_equal. apply format_item_shown; assumption.
    + exfalso. rewrite Heq, lacks_append in Hs1. discriminate.
    + exfalso. rewrite <- Heq, lacks_append in Hs2. discriminate.
    + destruct (cut_at_first " " _ _ _ _ Hs1 Hs2 Heq) as [Hi Hr].
      change (shown env i1 :: map (shown env) (j1 :: r1)
              = shown env i2 :: map (shown env) (j2 :: r2)).
      f_equal; [apply format_item_shown; assumption|].
      apply IH; assumption.
Qed.

End ExportedLine.

Lemma exported_line_determines_params_witness :
  map (shown Example.env0) [("lr", JInt 3); ("layers", JStr "two")]
  = map (shown Example.env0) [("lr", JStr "3"); ("layers", JStr "two")].
Proof.
  apply (exported_line_determines_params Example.env0
           [("lr", JInt 3); ("layers", JStr "two")] [("lr", JStr "3"); ("layers", JStr "two")]).
  - repeat constructor.
  - repeat constructor.
  - reflexivity.
Defined.

(** Without the condition the line is ambiguous: a value printed with a
    space reads as two parameters. *)
Example exported_line_ambiguous :
  join " " (map (format_item Example.env0) [("a", JStr "1 b=2")])
  = join " " (map (format_item Example.env0) [("a", JStr "1"); ("b", JStr "2")]).
Proof. reflexivity. Qed.

(** ** Reading the two files *)

(** X10: the configuration file is guarded by [os.path.isfile], so
    loading it never fails for a path that is unset, missing or names a
    directory: when it fails, the path names a regular file, and the
    failure is the exception that opening and decoding that file
    raises. *)
Theorem load_optuna_config_raises_only_on_file (f : gmap string node)
    (optuna_param_path : option string) (e : error) :
  load_optuna_config f optuna_param_path = Raise e ->
  exists path,
    optuna_param_path = Some path /\
    os_path_isfile f path = true /\
    f !! path = Some (File (Raise e)).
Proof.
  unfold load_optuna_config, os_path_isfile, json_load.
  destruct optuna_param_path as [path|]; [|discriminate].
  destruct (f !! path) as [[|[doc|e0]]|] eqn:Hf; try discriminate.
  intros H. inversion H; subst. exists path. rewrite Hf. auto.
Qed.

Lemma load_optuna_config_raises_only_on_file_witness :
  exists path,
    Some "optuna.json" = Some path /\
    os_path_isfile Cases.fs2 path = true /\
    Cases.fs2 !! path = Some (File (Raise (UnicodeDecodeError "optuna.json"))).
Proof.
  apply (load_optuna_config_raises_only_on_file Cases.fs2 (Some "optuna.json")
           (UnicodeDecodeError "optuna.json")).
  reflexivity.
Defined.

(** X11: a trial whose descriptors cannot be read or sampled never
    reaches the executor: the objective raises what the sampling raised,
    from the world the sampling left, and the file system is as it was,
    with no directory made for the trial. *)
Theorem failed_sampling_makes_no_directory (env : Env) (args : Namespace) (study : Study)
    (n : nat) (path : string) (w w' : world) (e : error) :
  sample_hparams env study n path w = (Raise e, w') ->
  _objective env args study n path w = (Raise e, w') /\ fs w' = fs w.
Proof.
  intros Hs. split.
  - unfold _objective, bindM. rewrite Hs. reflexivity.
  - pose proof (sample_hparams_fs env study (fs w) n path w eq_refl) as H.
    rewrite Hs in H. exact H.
Qed.

Lemma failed_sampling_makes_no_directory_witness :
  _objective Example.env0 (add_subparser Example.cli0) Example.demo 0 "hparams.json"
    Cases.world2
  = (Raise TypeError, Cases.world2) /\
  fs Cases.world2 = fs Cases.world2.
Proof.
  apply (failed_sampling_makes_no_directory Example.env0 (add_subparser Example.cli0)
           Example.demo 0 "hparams.json" Cases.world2 Cases.world2 TypeError).
  vm_compute. reflexivity.
Defined.
